(** * api_tester: variable substitution and the assertion evaluator

    A shallow embedding of [APITester.substitute_vars] and [APITester.run_test]
    (src/api_tester.py), with the Python library functions they call
    ([str.split], [str.strip], [str.replace], [str.startswith], [int], [str],
    [re.sub] for the one pattern used, [os.getenv]).

    Python [str] values are modelled as [string]; a character is a code point
    below 256, classified as Python classifies the Latin-1 range.  The process
    environment read by [os.getenv] is a finite map from names to values. *)

From Stdlib Require Import ZArith NArith Bool List Ascii String Lia.
From Stdlib Require Import Numbers.DecimalString.
From stdpp Require Import base gmap strings.

Import ListNotations.
#[local] Set Warnings "-register-all".

(** ** Characters *)

Definition ord (c : ascii) : N := N_of_ascii c.

Definition between (lo hi : N) (c : ascii) : bool :=
  ((lo <=? ord c) && (ord c <=? hi))%N.

(** [str.isspace] on one character: the whitespace that [str.strip] with no
    argument removes. *)
Definition isspace (c : ascii) : bool :=
  between 9 13 c || between 28 32 c || (ord c =? 133)%N || (ord c =? 160)%N.

(** The whitespace that [int] skips around a literal: the ASCII whitespace of
    C and the whitespace outside ASCII. *)
Definition isspace_int (c : ascii) : bool :=
  between 9 13 c || (ord c =? 32)%N || (ord c =? 133)%N || (ord c =? 160)%N.

(** A decimal digit, as [int] reads it. *)
Definition isdecimal (c : ascii) : bool := between 48 57 c.

(** The class [\w] of [re] on a [str] pattern: alphanumeric or underscore. *)
Definition isword (c : ascii) : bool :=
  between 48 57 c || between 65 90 c || between 97 122 c || (ord c =? 95)%N
  || (ord c =? 170)%N || (ord c =? 178)%N || (ord c =? 179)%N
  || (ord c =? 181)%N || (ord c =? 185)%N || (ord c =? 186)%N
  || between 188 190 c || between 192 214 c || between 216 246 c
  || between 248 255 c.

(** [str.isprintable] on one character, as [repr] uses it. *)
Definition isprintable (c : ascii) : bool :=
  between 32 126 c || (between 161 255 c && negb (ord c =? 173)%N).

Definition squote : ascii := "039".
Definition dquote : ascii := "034".
Definition backslash : ascii := "092".

(** ** Strings *)

Fixpoint all_chars (p : ascii -> bool) (s : string) : bool :=
  match s with
  | EmptyString => true
  | String c t => p c && all_chars p t
  end.

Fixpoint mem_char (c : ascii) (chars : string) : bool :=
  match chars with
  | EmptyString => false
  | String d t => Ascii.eqb c d || mem_char c t
  end.

(** The longest prefix whose characters satisfy [p], and what follows it. *)
Fixpoint span (p : ascii -> bool) (s : string) : string * string :=
  match s with
  | EmptyString => (EmptyString, EmptyString)
  | String c t =>
      if p c then let (a, b) := span p t in (String c a, b)
      else (EmptyString, s)
  end.

Fixpoint lstrip_by (p : ascii -> bool) (s : string) : string :=
  match s with
  | EmptyString => EmptyString
  | String c t => if p c then lstrip_by p t else s
  end.

Fixpoint rstrip_by (p : ascii -> bool) (s : string) : string :=
  match s with
  | EmptyString => EmptyString
  | String c t =>
      match rstrip_by p t with
      | EmptyString => if p c then EmptyString else String c EmptyString
      | r => String c r
      end
  end.

Definition strip_by (p : ascii -> bool) (s : string) : string :=
  rstrip_by p (lstrip_by p s).

(** [s.strip()] *)
Definition py_strip (s : string) : string := strip_by isspace s.

(** [s.strip(chars)] *)
Definition py_strip_chars (chars s : string) : string :=
  strip_by (fun c => mem_char c chars) s.

(** [s.startswith(p)] *)
Definition startswith (s p : string) : bool := String.prefix p s.

Fixpoint drop (n : nat) (s : string) : string :=
  match n, s with
  | O, _ => s
  | S k, String _ t => drop k t
  | S _, EmptyString => EmptyString
  end.

Fixpoint take (n : nat) (s : string) : string :=
  match n, s with
  | S k, String c t => String c (take k t)
  | _, _ => EmptyString
  end.

(** The text before and after the first occurrence of [sep] in [s]
    (the first and last components of [s.partition(sep)]), when there is one. *)
Fixpoint cut (sep s : string) : option (string * string) :=
  if String.prefix sep s then Some (EmptyString, drop (String.length sep) s)
  else
    match s with
    | EmptyString => None
    | String c t =>
        match cut sep t with
        | Some (a, b) => Some (String c a, b)
        | None => None
        end
    end.

(** [s.split(sep)] for a non-empty [sep]: the fuel counts the separators that
    can still be found, and a string of length [n] holds at most [n]. *)
Fixpoint split_fuel (fuel : nat) (sep s : string) : list string :=
  match fuel with
  | O => [s]
  | S f =>
      match cut sep s with
      | Some (a, b) => a :: split_fuel f sep b
      | None => [s]
      end
  end.

Definition py_split (sep s : string) : list string :=
  split_fuel (String.length s) sep s.

(** [s.replace(old, new)] for a non-empty [old]. *)
Fixpoint replace_fuel (fuel : nat) (old new s : string) : string :=
  match fuel with
  | O => s
  | S f =>
      match cut old s with
      | Some (a, b) => a +:+ new +:+ replace_fuel f old new b
      | None => s
      end
  end.

Definition py_replace (old new s : string) : string :=
  replace_fuel (String.length s) old new s.

(** [sep.join(parts)] *)
Fixpoint join (sep : string) (parts : list string) : string :=
  match parts with
  | [] => EmptyString
  | [p] => p
  | p :: rest => p +:+ sep +:+ join sep rest
  end.

(** [str(n)] for an [int]. *)
Definition str_int (n : Z) : string := NilZero.string_of_int (Z.to_int n).

Definition hexdigit (n : N) : ascii :=
  if (n <? 10)%N then ascii_of_N (48 + n) else ascii_of_N (87 + n).

(** [repr(s)] for a [str]: the quote is double when [s] holds a single quote
    and no double quote, single otherwise. *)
Definition repr_quote (s : string) : ascii :=
  if all_chars (fun c => negb (Ascii.eqb c squote)) s then squote
  else if all_chars (fun c => negb (Ascii.eqb c dquote)) s then dquote
  else squote.

Definition repr_char (q c : ascii) : string :=
  if Ascii.eqb c q || Ascii.eqb c backslash then String backslash (String c EmptyString)
  else if (ord c =? 9)%N then String backslash "t"
  else if (ord c =? 10)%N then String backslash "n"
  else if (ord c =? 13)%N then String backslash "r"
  else if isprintable c then String c EmptyString
  else String backslash
         (String "x" (String (hexdigit (ord c / 16)) (String (hexdigit (ord c mod 16)) EmptyString))).

Fixpoint repr_chars (q : ascii) (s : string) : string :=
  match s with
  | EmptyString => EmptyString
  | String c t => repr_char q c +:+ repr_chars q t
  end.

Definition repr_str (s : string) : string :=
  let q := repr_quote s in
  String q (repr_chars q s) +:+ String q EmptyString.

(** ** Exceptions

    A computation that may raise is a [result]: [Ok] carries the value,
    [Raise] the exception. *)

Inductive result (E A : Type) : Type :=
| Ok (a : A)
| Raise (e : E).

Arguments Ok {E A} a.
Arguments Raise {E A} e.

Definition bind {E A B : Type} (m : result E A) (k : A -> result E B) : result E B :=
  match m with
  | Ok a => k a
  | Raise e => Raise e
  end.

Notation "'let*' x ':=' m 'in' k" := (bind m (fun x => k))
  (at level 10, x name, m at level 100, k at level 200).

(** The exceptions that reach [except Exception as e] in [run_test]; each
    carries the text that [str(e)] gives. *)
Inductive Exception : Type :=
| IndexError (msg : string)
| ValueError (msg : string).

Definition exception_str (e : Exception) : string :=
  match e with
  | IndexError msg => msg
  | ValueError msg => msg
  end.

(** The exceptions raised inside the inner [try] of [run_test]; the bare
    [except] there swallows them, so they carry no message. *)
Inductive LookupFailure : Type :=
| JSONDecodeError
| KeyError (key : string)
| TypeError.

(** [l[i]] on a list. *)
Definition getitem {A : Type} (l : list A) (i : nat) : result Exception A :=
  match nth_error l i with
  | Some x => Ok x
  | None => Raise (IndexError "list index out of range")
  end.

(** ** [int(s)] for a [str] *)

Definition digit_value (c : ascii) : Z := Z.of_N (ord c) - 48.

(** Digits with single underscores between them; [prev] tells whether the
    character before was a digit. *)
Fixpoint digits_value (acc : Z) (prev : bool) (s : string) : option Z :=
  match s with
  | EmptyString => if prev then Some acc else None
  | String c t =>
      if isdecimal c then digits_value (10 * acc + digit_value c) true t
      else if Ascii.eqb c "_" && prev then digits_value acc false t
      else None
  end.

(** The value of a decimal literal: whitespace around it, a sign, digits.
    The limit that recent interpreters put on the number of digits is not
    modelled. *)
Definition parse_int (s : string) : option Z :=
  match strip_by isspace_int s with
  | String "-" t => option_map Z.opp (digits_value 0 false t)
  | String "+" t => digits_value 0 false t
  | t => digits_value 0 false t
  end.

(** [int(s)]: the message of the [ValueError] shows [repr(s)], cut at 200
    characters. *)
Definition py_int (s : string) : result Exception Z :=
  match parse_int s with
  | Some n => Ok n
  | None =>
      Raise (ValueError ("invalid literal for int() with base 10: " +:+ take 200 (repr_str s)))
  end.

(** ** [substitute_vars] *)

(** One attempt of the pattern [\{\{(\w+)\}\}] at the start of [s]: the name
    captured and the text after the match.  [\w+] is greedy and the character
    that stops it is not a word character, so giving characters back never
    lets the closing braces match. *)
Definition match_placeholder (s : string) : option (string * string) :=
  match s with
  | String c1 (String c2 t) =>
      if Ascii.eqb c1 "{" && Ascii.eqb c2 "{" then
        match span isword t with
        | (String n ns, String d1 (String d2 rest)) =>
            if Ascii.eqb d1 "}" && Ascii.eqb d2 "}" then Some (String n ns, rest)
            else None
        | _ => None
        end
      else None
  | _ => None
  end.

(** The whole match, [match.group(0)], for the captured name. *)
Definition placeholder (name : string) : string := "{{" +:+ name +:+ "}}".

(** [re.sub(pattern, repl, s)]: matches are sought left to right; a match is
    replaced by [repl group0 group1] and the scan resumes after it, the
    replacement itself is not read again.  Each step consumes a character. *)
Fixpoint re_sub_fuel (fuel : nat) (repl : string -> string -> string) (s : string) : string :=
  match fuel with
  | O => s
  | S f =>
      match match_placeholder s with
      | Some (name, rest) => repl (placeholder name) name +:+ re_sub_fuel f repl rest
      | None =>
          match s with
          | EmptyString => EmptyString
          | String c t => String c (re_sub_fuel f repl t)
          end
      end
  end.

Definition re_sub (repl : string -> string -> string) (s : string) : string :=
  re_sub_fuel (String.length s) repl s.

(** [os.getenv(name, default)] *)
Definition getenv (environ : gmap string string) (name default : string) : string :=
  match environ !! name with
  | Some value => value
  | None => default
  end.

Definition substitute_vars (environ : gmap string string) (text : string) : string :=
  let replace (group0 group1 : string) :=
    let var_name := group1 in
    getenv environ var_name group0 in
  re_sub replace text.

(** ** Responses

    What [response.json()] returns: the Python value of a JSON document.  A
    [float] is kept as the text that [str] gives for it, the only thing
    [run_test] does with one.  An object is the list of its members in
    insertion order, with distinct keys. *)
Inductive JSON : Type :=
| JNull
| JBool (b : bool)
| JInt (n : Z)
| JFloat (text : string)
| JStr (s : string)
| JList (items : list JSON)
| JDict (members : list (string * JSON)).

(** The part of [requests.Response] that [run_test] reads: [status_code], and
    the outcome of [json()], [None] when it raises. *)
Record Response : Type := {
  status_code : Z;
  json : option JSON
}.

(** [repr(value)] *)
Fixpoint py_repr (value : JSON) : string :=
  match value with
  | JNull => "None"
  | JBool true => "True"
  | JBool false => "False"
  | JInt n => str_int n
  | JFloat text => text
  | JStr s => repr_str s
  | JList items => "[" +:+ join ", " (map py_repr items) +:+ "]"
  | JDict members =>
      "{" +:+ join ", " (map (fun m => repr_str (fst m) +:+ ": " +:+ py_repr (snd m)) members)
          +:+ "}"
  end.

(** [str(value)], which is also what an f-string field formats. *)
Definition py_str (value : JSON) : string :=
  match value with
  | JStr s => s
  | _ => py_repr value
  end.

Fixpoint lookup_member (key : string) (members : list (string * JSON)) : option JSON :=
  match members with
  | [] => None
  | (k, v) :: rest => if String.eqb key k then Some v else lookup_member key rest
  end.

(** [value[key]] for a [str] key: only a [dict] accepts one. *)
Definition subscript (value : JSON) (key : string) : result LookupFailure JSON :=
  match value with
  | JDict members =>
      match lookup_member key members with
      | Some v => Ok v
      | None => Raise (KeyError key)
      end
  | _ => Raise TypeError
  end.

(** [for key in keys: value = value[key]] *)
Fixpoint traverse (value : JSON) (keys : list string) : result LookupFailure JSON :=
  match keys with
  | [] => Ok value
  | key :: rest =>
      let* value := subscript value key in
      traverse value rest
  end.

Definition response_json (response : Response) : result LookupFailure JSON :=
  match json response with
  | Some body => Ok body
  | None => Raise JSONDecodeError
  end.

(** ** [run_test] *)

Record Results : Type := {
  passed : list string;
  failed : list string
}.

Definition no_results : Results := {| passed := []; failed := [] |}.

(** [results["passed"].append(entry)] and [results["failed"].append(entry)] *)
Definition append_passed (results : Results) (entry : string) : Results :=
  {| passed := passed results ++ [entry]; failed := failed results |}.

Definition append_failed (results : Results) (entry : string) : Results :=
  {| passed := passed results; failed := failed results ++ [entry] |}.

(** The [status_code] branch (lines 180-184). *)
Definition status_branch (response : Response) (results : Results) (assertion : string)
  : result Exception Results :=
  let* rhs := getitem (py_split "==" assertion) 1 in
  let* expected := py_int (py_strip rhs) in
  if (status_code response =? expected)%Z then
    Ok (append_passed results assertion)
  else
    Ok (append_failed results (assertion +:+ " (got " +:+ str_int (status_code response) +:+ ")")).

(** The two assignments that open the [body.] branch (lines 187-188). *)
Definition body_path (assertion : string) : result Exception string :=
  let* lhs := getitem (py_split "==" assertion) 0 in
  Ok (py_replace "body." EmptyString (py_strip lhs)).

Definition body_expected (assertion : string) : result Exception string :=
  let* rhs := getitem (py_split "==" assertion) 1 in
  Ok (py_strip_chars (String squote (String dquote EmptyString)) (py_strip rhs)).

(** What the inner [try] computes before it compares (lines 190-194). *)
Definition body_value (response : Response) (path : string) : result LookupFailure JSON :=
  let* body := response_json response in
  let keys := py_split "." path in
  traverse body keys.

(** The inner [try] with its bare [except] (lines 189-200). *)
Definition body_check (response : Response) (results : Results)
    (assertion path expected : string) : Results :=
  match body_value response path with
  | Ok value =>
      if String.eqb (py_str value) expected then append_passed results assertion
      else append_failed results (assertion +:+ " (got " +:+ py_str value +:+ ")")
  | Raise _ =>
      append_failed results (assertion +:+ " (invalid path or response not JSON)")
  end.

Definition body_branch (response : Response) (results : Results) (assertion : string)
  : result Exception Results :=
  let* path := body_path assertion in
  let* expected := body_expected assertion in
  Ok (body_check response results assertion path expected).

(** The body of the outer [try] (lines 179-200): an assertion with neither
    prefix falls through both tests and leaves [results] as it was. *)
Definition try_assertion (response : Response) (results : Results) (assertion : string)
  : result Exception Results :=
  if startswith assertion "status_code" then status_branch response results assertion
  else if startswith assertion "body." then body_branch response results assertion
  else Ok results.

(** One turn of the loop: the outer [try] and its [except Exception as e]. *)
Definition run_assertion (response : Response) (results : Results) (assertion : string)
  : Results :=
  match try_assertion response results assertion with
  | Ok results' => results'
  | Raise e => append_failed results (assertion +:+ " (error: " +:+ exception_str e +:+ ")")
  end.

Definition run_test (response : Response) (assertions : list string) : Results :=
  fold_left (run_assertion response) assertions no_results.

(** ** The specification's vocabulary

    The notions below follow the words of the specification; the theorems
    compare them with the functions above. *)

(** One or more word characters. *)
Definition is_name (s : string) : bool :=
  match s with
  | EmptyString => false
  | String _ _ => all_chars isword s
  end.

(** The text begins with a well-formed token. *)
Definition starts_with_placeholder (text : string) : Prop :=
  exists name rest, is_name name = true /\ text = placeholder name +:+ rest.

(** The rewriting of section 4.1: tokens are taken left to right without
    overlap; a token whose name is bound becomes the bound value, a token
    whose name is unbound stays, and every other character is copied. *)
Inductive Substitution (environ : gmap string string) : string -> string -> Prop :=
| subst_end :
    Substitution environ EmptyString EmptyString
| subst_bound name value rest out :
    is_name name = true ->
    environ !! name = Some value ->
    Substitution environ rest out ->
    Substitution environ (placeholder name +:+ rest) (value +:+ out)
| subst_unbound name rest out :
    is_name name = true ->
    environ !! name = None ->
    Substitution environ rest out ->
    Substitution environ (placeholder name +:+ rest) (placeholder name +:+ out)
| subst_other c rest out :
    ~ starts_with_placeholder (String c rest) ->
    Substitution environ rest out ->
    Substitution environ (String c rest) (String c out).

(** [sep] occurs in [s]. *)
Definition Occurs (sep s : string) : Prop :=
  exists a b, s = a +:+ sep +:+ b.

(** [s] is [a], then its first occurrence of [sep], then [b]. *)
Definition FirstCut (sep s a b : string) : Prop :=
  s = a +:+ sep +:+ b /\
  forall a' b', s = a' +:+ sep +:+ b' -> String.length a <= String.length a'.

(** The text that follows the first [sep] of [s] up to the next [sep], or up
    to the end of [s] when there is no other. *)
Definition UpToNext (sep s mid : string) : Prop :=
  (~ Occurs sep s /\ mid = s) \/ (exists tail, FirstCut sep s mid tail).

(** [s] without the prefix [p], when it starts with it. *)
Definition strip_prefix (p s : string) : string :=
  if String.prefix p s then drop (String.length p) s else s.

Definition is_quote (c : ascii) : bool := Ascii.eqb c squote || Ascii.eqb c dquote.

Definition quotes : string := String squote (String dquote EmptyString).

Fixpoint unsnoc (s : string) : option (string * ascii) :=
  match s with
  | EmptyString => None
  | String c t =>
      match unsnoc t with
      | None => Some (EmptyString, c)
      | Some (init, last) => Some (String c init, last)
      end
  end.

(** One layer of surrounding quotes removed, when there is one. *)
Definition strip_one_layer (s : string) : string :=
  match s with
  | String q t =>
      match unsnoc t with
      | Some (inner, q') => if is_quote q && is_quote q' then inner else s
      | None => s
      end
  | EmptyString => s
  end.

Definition starts_by (p : ascii -> bool) (s : string) : bool :=
  match s with
  | String c _ => p c
  | EmptyString => false
  end.

Definition ends_by (p : ascii -> bool) (s : string) : bool :=
  match unsnoc s with
  | Some (_, c) => p c
  | None => false
  end.


(** Outcomes of two runs, one after the other. *)
Definition merge (r1 r2 : Results) : Results :=
  {| passed := passed r1 ++ passed r2; failed := failed r1 ++ failed r2 |}.

(** The exception, if any, that the evaluation of one assertion raises:
    either one that leaves the outer [try] body, or one raised inside the
    inner [try]. *)
Definition raised (response : Response) (assertion : string)
  : option (Exception + LookupFailure) :=
  match try_assertion response no_results assertion with
  | Raise e => Some (inl e)
  | Ok _ =>
      if startswith assertion "status_code" then None
      else if startswith assertion "body." then
        match body_path assertion with
        | Ok path =>
            match body_value response path with
            | Raise e => Some (inr e)
            | Ok _ => None
            end
        | Raise _ => None
        end
      else None
  end.


(** ** Sample environments and responses *)

Definition env_ab : gmap string string := <["a" := "{{b}}"]> (<["b" := "x"]> ∅).

Definition response_404 : Response := {| status_code := 404; json := None |}.

Definition response_text : Response := {| status_code := 200; json := None |}.


Definition response_x (value : JSON) : Response :=
  {| status_code := 200; json := Some (JDict [("x", value)]) |}.

Definition response_a1 : Response :=
  {| status_code := 200; json := Some (JDict [("a", JInt 1)]) |}.


(** ** The rest of the tool

    The command line of [request] (its headers, parameters and credentials),
    the arguments that [send_request] hands to the HTTP library, the history
    file and the collection files.  Values that come from the command line or
    from a JSON file are Python values, modelled as [JSON]; [None] is
    [JNull]. *)

(** The assertions that one of the two branches of [run_test] takes. *)
Definition recognised (assertion : string) : bool :=
  startswith assertion "status_code" || startswith assertion "body.".

Module Cli.

(** The exceptions of this part of the code. *)
Inductive Error : Type :=
| AttributeError
| TypeError
| KeyError (key : string)
| ValueError (msg : string)
| JSONDecodeError
| MarkupError.

(** [sub in s] for two strings. *)
Fixpoint py_in (sub s : string) : bool :=
  String.prefix sub s
  || match s with
     | EmptyString => false
     | String _ t => py_in sub t
     end.

(** [s.split(sep, 1)] for a non-empty [sep]. *)
Definition py_split1 (sep s : string) : list string :=
  match cut sep s with
  | Some (a, b) => [a; b]
  | None => [s]
  end.

(** [a, b = l] *)
Definition unpack2 {A : Type} (l : list A) : result Error (A * A) :=
  match l with
  | [a; b] => Ok (a, b)
  | [] | [_] => Raise (ValueError "not enough values to unpack")
  | _ => Raise (ValueError "too many values to unpack")
  end.

(** [d[key] = value] on a [dict], kept as the list of its members in
    insertion order: a key that is there keeps its place. *)
Fixpoint dict_set (key : string) (value : JSON) (members : list (string * JSON))
  : list (string * JSON) :=
  match members with
  | [] => [(key, value)]
  | (k, v) :: rest =>
      if String.eqb key k then (k, value) :: rest
      else (k, v) :: dict_set key value rest
  end.

(** One turn of the loops over [header] and over [param] (lines 235-238 and
    242-245), which differ in the separator only. *)
Definition add_pair (sep : string) (pairs : list (string * JSON)) (item : string)
  : result Error (list (string * JSON)) :=
  if py_in sep item then
    let* kv := unpack2 (py_split1 sep item) in
    Ok (dict_set (py_strip (fst kv)) (JStr (py_strip (snd kv))) pairs)
  else Ok pairs.

Fixpoint add_pairs (sep : string) (pairs : list (string * JSON)) (items : list string)
  : result Error (list (string * JSON)) :=
  match items with
  | [] => Ok pairs
  | item :: rest =>
      let* pairs := add_pair sep pairs item in
      add_pairs sep pairs rest
  end.

Definition parse_headers (header : list string) : result Error (list (string * JSON)) :=
  add_pairs ":" [] header.

Definition parse_params (param : list string) : result Error (list (string * JSON)) :=
  add_pairs "=" [] param.

(** The credentials (lines 270-274); the option is [None] when it was not
    given. *)
Definition parse_auth (auth : option string) : result Error (option (string * string)) :=
  match auth with
  | None | Some EmptyString => Ok None
  | Some auth =>
      if py_in ":" auth then
        let* up := unpack2 (py_split1 ":" auth) in
        Ok (Some up)
      else Ok None
  end.

(** [bool(value)] *)
Definition py_bool (value : JSON) : bool :=
  match value with
  | JNull => false
  | JBool b => b
  | JInt n => negb (n =? 0)%Z
  | JFloat text => negb (String.eqb text "0.0" || String.eqb text "-0.0")
  | JStr EmptyString => false
  | JStr _ => true
  | JList [] => false
  | JList _ => true
  | JDict [] => false
  | JDict _ => true
  end.

Definition is_dict (value : JSON) : bool :=
  match value with
  | JDict _ => true
  | _ => false
  end.

(** [value[key]] for a [str] key, outside [run_test]. *)
Definition getitem_key (value : JSON) (key : string) : result Error JSON :=
  match value with
  | JDict members =>
      match lookup_member key members with
      | Some v => Ok v
      | None => Raise (KeyError key)
      end
  | _ => Raise TypeError
  end.

(** [l.append(x)] and [l.insert(0, x)]: only a [list] has them. *)
Definition list_append (l x : JSON) : result Error JSON :=
  match l with
  | JList items => Ok (JList (items ++ [x]))
  | _ => Raise AttributeError
  end.

Definition list_insert0 (l x : JSON) : result Error (list JSON) :=
  match l with
  | JList items => Ok (x :: items)
  | _ => Raise AttributeError
  end.

(** *** [send_request]: the arguments of [requests.request] (lines 77-94) *)

Record RequestArgs : Type := {
  arg_method : string;
  arg_url : string;
  arg_headers : JSON;
  arg_params : JSON;
  arg_json : JSON;
  arg_data : JSON;
  arg_auth : option (string * string);
  arg_timeout : Z;
  arg_verify : bool
}.

Section SendRequest.

(** [str.upper], whose results on some letters are code points above 255. *)
Variable upper : string -> string.
Variable environ : gmap string string.

(** [self.substitute_vars(text)]: [re.sub] takes a [str]. *)
Definition substitute_value (text : JSON) : result Error string :=
  match text with
  | JStr s => Ok (substitute_vars environ s)
  | _ => Raise TypeError
  end.

(** [{k: self.substitute_vars(str(v)) for k, v in headers.items()}] *)
Definition substitute_headers (headers : JSON) : result Error JSON :=
  match headers with
  | JDict members =>
      Ok (JDict (map (fun m => (fst m, JStr (substitute_vars environ (py_str (snd m)))))
                     members))
  | _ => Raise AttributeError
  end.

(** [method.upper()] *)
Definition upper_value (method : JSON) : result Error string :=
  match method with
  | JStr s => Ok (upper s)
  | _ => Raise AttributeError
  end.

Definition request_arguments (method url headers params body : JSON)
    (auth : option (string * string)) (timeout : Z) (verify : bool)
  : result Error RequestArgs :=
  let* url := substitute_value url in
  let* headers := if py_bool headers then substitute_headers headers else Ok headers in
  let* method := upper_value method in
  Ok {| arg_method := method;
        arg_url := url;
        arg_headers := headers;
        arg_params := params;
        arg_json := if is_dict body then body else JNull;
        arg_data := if is_dict body then JNull else body;
        arg_auth := auth;
        arg_timeout := timeout;
        arg_verify := verify |}.

End SendRequest.

(** *** Files

    A file of the tool is missing, or holds text that [json.load] rejects, or
    holds a JSON document; what [json.dump] writes, [json.load] reads back. *)
Inductive File : Type :=
| Missing
| Unreadable
| Document (value : JSON).

(** [json.load(f)] on a file that exists. *)
Definition json_load (file : File) : result Error JSON :=
  match file with
  | Document value => Ok value
  | Missing | Unreadable => Raise JSONDecodeError
  end.

(** *** [save_to_history] (lines 133-153)

    [now] is [datetime.now().isoformat()]; the response gives its status code
    and its reason phrase. *)
Record HttpResponse : Type := {
  view : Response;
  reason : string
}.

Definition history_entry (now : string) (method url : JSON) (response : HttpResponse)
  : JSON :=
  JDict [("timestamp", JStr now);
         ("method", method);
         ("url", url);
         ("status_code", JInt (status_code (view response)));
         ("status_text", JStr (reason response))].

(** The new content of the history file; an exception leaves the file as it
    was, nothing is written before the last statement. *)
Definition save_to_history (now : string) (history_file : File)
    (method url : JSON) (response : HttpResponse) : result Error File :=
  let* history :=
    match history_file with
    | Missing => Ok (JList [])
    | _ => json_load history_file
    end in
  let entry := history_entry now method url response in
  let* history := list_insert0 history entry in
  let history := firstn 100 history in
  Ok (Document (JList history)).

(** *** Collections (lines 155-170 and 312-324)

    [renders text] tells whether [console.print] accepts [text]; it raises on
    markup that it cannot read, which a name can hold. *)
Section Collections.

Variable renders : string -> bool.

Definition console_print (text : string) : result Error unit :=
  if renders text then Ok tt else Raise MarkupError.

(** The file of the collection after [save_collection], and whether the call
    returns: the message comes after the file is written. *)
Definition save_collection (name : string) (requests : JSON) : File * result Error unit :=
  (Document (JDict [("name", JStr name); ("requests", requests)]),
   console_print ("[green]Collection '" +:+ name +:+ "' saved successfully![/green]")).

Definition load_collection (collection_file : File) (name : string) : result Error JSON :=
  match collection_file with
  | Missing =>
      let* _ := console_print ("[red]Collection '" +:+ name +:+ "' not found![/red]") in
      Ok JNull
  | _ => json_load collection_file
  end.

(** [request_data] of the [request] command. *)
Definition request_data (method url : string) (headers params : list (string * JSON))
    (body_data : JSON) : JSON :=
  JDict [("method", JStr method);
         ("url", JStr url);
         ("headers", JDict headers);
         ("params", JDict params);
         ("body", body_data)].

(** The [--save] step of [request] (lines 320-324) on the file of the
    collection [save]: the file afterwards, and whether the step returns. *)
Definition save_request (collection_file : File) (save : string) (data : JSON)
  : File * result Error unit :=
  match
    (let* collection := load_collection collection_file save in
     let* requests_list :=
       if py_bool collection then getitem_key collection "requests" else Ok (JList []) in
     list_append requests_list data)
  with
  | Ok requests_list => save_collection save requests_list
  | Raise e => (collection_file, Raise e)
  end.

End Collections.

(** *** [run_collection] (lines 421-458)

    What the command prints is not modelled, only whether each call of
    [console.print] returns: [prints site] tells it for the call at [site].
    [http i args] is what [send_request] gives for the arguments [args] of
    the [i]-th request: the response of the library, or the exception that
    its handler raises again.  [now i] is the time of the [i]-th entry. *)
Inductive Site : Type :=
| SayRunning
| SayRequest (i : nat)
| SayResponse (i : nat)
| SayError (i : nat)
| SayBlank (i : nat)
| SaySummary.

(** [results] of [run_collection]. *)
Record Tally : Type := {
  passed_count : nat;
  failed_count : nat;
  total_count : nat
}.

Definition count_passed (tally : Tally) : Tally :=
  {| passed_count := S (passed_count tally);
     failed_count := failed_count tally;
     total_count := total_count tally |}.

Definition count_failed (tally : Tally) : Tally :=
  {| passed_count := passed_count tally;
     failed_count := S (failed_count tally);
     total_count := total_count tally |}.

(** [d.get(key, default)]: only a [dict] has it. *)
Definition dict_get (d : JSON) (key : string) (default : JSON) : result Error JSON :=
  match d with
  | JDict members =>
      Ok match lookup_member key members with
         | Some v => v
         | None => default
         end
  | _ => Raise AttributeError
  end.

(** What a [for] loop gets from a value, and [len] of it. *)
Definition py_iter (value : JSON) : result Error (list JSON) :=
  match value with
  | JList items => Ok items
  | JDict members => Ok (map (fun m => JStr (fst m)) members)
  | JStr s => Ok (map (fun c => JStr (String c EmptyString)) (list_ascii_of_string s))
  | _ => Raise TypeError
  end.

Definition py_len (value : JSON) : result Error nat :=
  let* items := py_iter value in Ok (length items).

Section RunCollection.

Variable upper : string -> string.
Variable environ : gmap string string.
Variable renders : string -> bool.
Variable prints : Site -> bool.
Variable http : nat -> RequestArgs -> result Error HttpResponse.
Variable now : nat -> string.

Definition say (site : Site) : result Error unit :=
  if prints site then Ok tt else Raise MarkupError.

Definition send_request (i : nat) (method url headers params body : JSON)
    (auth : option (string * string)) (timeout : Z) (verify : bool)
  : result Error HttpResponse :=
  let* args := request_arguments upper environ method url headers params body
                 auth timeout verify in
  http i args.

(** Lines 435-444: the request is sent and its line is printed. *)
Definition answer (i : nat) (req : JSON) : result Error HttpResponse :=
  let* method := dict_get req "method" (JStr "GET") in
  let* url := dict_get req "url" (JStr EmptyString) in
  let* headers := dict_get req "headers" JNull in
  let* params := dict_get req "params" JNull in
  let* body := dict_get req "body" JNull in
  let* response := send_request i method url headers params body None 30 true in
  let* _ := say (SayResponse i) in
  Ok response.

(** Line 451. *)
Definition record (i : nat) (req : JSON) (response : HttpResponse) (history_file : File)
  : result Error File :=
  let* method := dict_get req "method" (JStr "GET") in
  let* url := dict_get req "url" (JStr EmptyString) in
  save_to_history (now i) history_file method url response.

(** One turn of the loop (lines 432-456): the counters and the history file
    after it.  The handler prints before it counts, and an exception in the
    handler leaves the command. *)
Definition run_request (i : nat) (req : JSON) (state : Tally * File)
  : result Error (Tally * File) :=
  let tally := fst state in
  let history_file := snd state in
  let* _ := say (SayRequest i) in
  let* state :=
    match answer i req with
    | Ok response =>
        let tally :=
          if (status_code (view response) <? 400)%Z then count_passed tally
          else count_failed tally in
        match record i req response history_file with
        | Ok history_file => Ok (tally, history_file)
        | Raise _ =>
            let* _ := say (SayError i) in
            Ok (count_failed tally, history_file)
        end
    | Raise _ =>
        let* _ := say (SayError i) in
        Ok (count_failed tally, history_file)
    end in
  let* _ := say (SayBlank i) in
  Ok state.

Fixpoint run_requests (i : nat) (requests : list JSON) (state : Tally * File)
  : result Error (Tally * File) :=
  match requests with
  | [] => Ok state
  | req :: rest =>
      let* state := run_request i req state in
      run_requests (S i) rest state
  end.

(** The counters that the command prints at its end ([None] when it returns
    at once) and the history file it leaves. *)
Definition run_collection (collection_file : File) (name : string) (history_file : File)
  : result Error (option Tally * File) :=
  let* collection := load_collection renders collection_file name in
  if negb (py_bool collection) then Ok (None, history_file)
  else
    let* _ := say SayRunning in
    let* requests := dict_get collection "requests" (JList []) in
    let* total := py_len requests in
    let results := {| passed_count := 0; failed_count := 0; total_count := total |} in
    let* requests := dict_get collection "requests" (JList []) in
    let* requests := py_iter requests in
    let* state := run_requests 1 requests (results, history_file) in
    let* _ := say SaySummary in
    Ok (Some (fst state), snd state).

End RunCollection.

(** *** Vocabulary of the properties *)

(** A pair as the loops over headers and parameters leave it: a key without
    the separator and without whitespace around it, a string value without
    whitespace around it. *)
Definition clean_pair (sep : string) (m : string * JSON) : Prop :=
  ~ Occurs sep (fst m) /\ py_strip (fst m) = fst m /\
  exists s, snd m = JStr s /\ py_strip s = s.

(** One call of [save_to_history]: the time, the method, the url and the
    response. *)
Definition Call : Type := string * JSON * JSON * HttpResponse.

Definition entry_of (call : Call) : JSON :=
  history_entry (fst (fst (fst call))) (snd (fst (fst call))) (snd (fst call)) (snd call).

(** Calls of [save_to_history] one after the other, each on the file that
    the one before left. *)
Fixpoint save_calls (history_file : File) (calls : list Call) : result Error File :=
  match calls with
  | [] => Ok history_file
  | call :: rest =>
      let* history_file :=
        save_to_history (fst (fst (fst call))) history_file
          (snd (fst (fst call))) (snd (fst call)) (snd call) in
      save_calls history_file rest
  end.

(** The history file holds nothing that [save_to_history] rejects. *)
Definition usable_history (history_file : File) : Prop :=
  history_file = Missing \/ exists history, history_file = Document (JList history).


(** The requests of [requests] that get a response whose line is printed. *)
Fixpoint answered (upper : string -> string) (environ : gmap string string)
    (prints : Site -> bool) (http : nat -> RequestArgs -> result Error HttpResponse)
    (i : nat) (requests : list JSON) : nat :=
  match requests with
  | [] => 0
  | req :: rest =>
      match answer upper environ prints http i req with
      | Ok _ => S (answered upper environ prints http (S i) rest)
      | Raise _ => answered upper environ prints http (S i) rest
      end
  end.

End Cli.

(** A collection file as [save_collection] writes it. *)
Definition collection_of (name : string) (requests : list JSON) : JSON :=
  JDict [("name", JStr name); ("requests", JList requests)].

(** The two counters of [run_collection] together. *)
Definition sum_counts (tally : Cli.Tally) : nat :=
  Cli.passed_count tally + Cli.failed_count tally.

(** The last line that [request] prints about the tests (lines 303-306). *)
Definition tests_verdict (results : Results) : string :=
  match failed results with
  | [] => String "010" "[bold green]All tests passed![/bold green]"
  | _ :: _ =>
      String "010" "[bold red]" +:+ str_int (Z.of_nat (length (failed results)))
        +:+ " test(s) failed![/bold red]"
  end.

(** *** Samples *)

Definition response_ok : Cli.HttpResponse :=
  {| Cli.view := response_text; Cli.reason := "OK" |}.

Definition sample_collection : Cli.File :=
  Cli.Document (collection_of "c" [JDict [("url", JStr "http://h/")]]).

(** A run in which every request is answered with status 200 and every
    message is printed. *)
Definition sample_run (history_file : Cli.File) : result Cli.Error (option Cli.Tally * Cli.File) :=
  Cli.run_collection (fun s => s) ∅ (fun _ => true) (fun _ => true)
    (fun _ _ => Ok response_ok) (fun _ => "t") sample_collection "c" history_file.

(** * Properties *)

(** ** Strings *)

Section StringFacts.

Implicit Types (s t p sep a b : string) (c : ascii).

Lemma sapp_cons c s t : String c s +:+ t = String c (s +:+ t).
Proof. reflexivity. Qed.

Lemma sapp_nil_l s : EmptyString +:+ s = s.
Proof. reflexivity. Qed.

Lemma sapp_nil_r s : s +:+ EmptyString = s.
Proof. induction s as [|c s IH]; [reflexivity|]. rewrite sapp_cons, IH. reflexivity. Qed.

Lemma sapp_assoc s t p : (s +:+ t) +:+ p = s +:+ (t +:+ p).
Proof.
  induction s as [|c s IH]; [reflexivity|].
  rewrite !sapp_cons, IH. reflexivity.
Qed.

Lemma slength_app s t : String.length (s +:+ t) = String.length s + String.length t.
Proof.
  induction s as [|c s IH]; [reflexivity|].
  rewrite sapp_cons. simpl. rewrite IH. reflexivity.
Qed.

Lemma app_eq_length a b a' b' :
  a +:+ b = a' +:+ b' -> String.length a = String.length a' -> a = a' /\ b = b'.
Proof.
  revert a'. induction a as [|c a IH]; intros [|c' a'] Heq Hlen; simpl in Hlen; try lia.
  - split; [reflexivity|exact Heq].
  - rewrite !sapp_cons in Heq. injection Heq as -> Heq.
    destruct (IH a' Heq) as [-> ->]; [lia|]. split; reflexivity.
Qed.

Lemma prefix_app p s : String.prefix p (p +:+ s) = true.
Proof.
  induction p as [|c p IH]; [destruct s; reflexivity|].
  rewrite sapp_cons. simpl. destruct (ascii_dec c c); [exact IH|congruence].
Qed.

Lemma prefix_inv p s : String.prefix p s = true -> s = p +:+ drop (String.length p) s.
Proof.
  revert s. induction p as [|c p IH]; intros s H; [reflexivity|].
  destruct s as [|d s]; [discriminate|]. simpl in H.
  destruct (ascii_dec c d) as [->|]; [|discriminate].
  rewrite sapp_cons. simpl. f_equal. apply IH, H.
Qed.


Lemma prefix_length p s : String.prefix p s = true -> String.length p <= String.length s.
Proof.
  intros H. rewrite (prefix_inv _ _ H), slength_app. lia.
Qed.

(** *** [cut]: the first occurrence *)

Lemma cut_eq sep s :
  cut sep s =
    if String.prefix sep s then Some (EmptyString, drop (String.length sep) s)
    else
      match s with
      | EmptyString => None
      | String c t =>
          match cut sep t with
          | Some (a, b) => Some (String c a, b)
          | None => None
          end
      end.
Proof. destruct s; reflexivity. Qed.

Lemma cut_sound sep s a b : cut sep s = Some (a, b) -> s = a +:+ sep +:+ b.
Proof.
  revert a b. induction s as [|c s IH]; intros a b H; rewrite cut_eq in H.
  - destruct (String.prefix sep EmptyString) eqn:Hp; [|discriminate].
    injection H as <- <-. rewrite sapp_nil_l. apply (prefix_inv _ _ Hp).
  - destruct (String.prefix sep (String c s)) eqn:Hp.
    + injection H as <- <-. rewrite sapp_nil_l. apply (prefix_inv _ _ Hp).
    + destruct (cut sep s) as [[a0 b0]|] eqn:Hc; [|discriminate].
      injection H as <- <-. rewrite sapp_cons. f_equal. apply IH. reflexivity.
Qed.

Lemma cut_first sep s a b :
  cut sep s = Some (a, b) ->
  forall a' b', s = a' +:+ sep +:+ b' -> String.length a <= String.length a'.
Proof.
  revert a b. induction s as [|c s IH]; intros a b H a' b' Heq; rewrite cut_eq in H.
  - destruct (String.prefix sep EmptyString); [|discriminate].
    injection H as <- <-. simpl. lia.
  - destruct (String.prefix sep (String c s)) eqn:Hp.
    + injection H as <- <-. simpl. lia.
    + destruct (cut sep s) as [[a0 b0]|] eqn:Hc; [|discriminate].
      injection H as <- <-.
      destruct a' as [|c' a'].
      * rewrite sapp_nil_l in Heq. rewrite Heq, prefix_app in Hp. discriminate.
      * rewrite sapp_cons in Heq. injection Heq as -> Heq.
        simpl. apply le_n_S. apply (IH _ _ eq_refl _ _ Heq).
Qed.

Lemma cut_complete sep s : Occurs sep s -> exists a b, cut sep s = Some (a, b).
Proof.
  intros (a' & b' & ->). induction a' as [|c a' IH].
  - rewrite sapp_nil_l, cut_eq, prefix_app. eauto.
  - rewrite sapp_cons, cut_eq.
    destruct (String.prefix sep (String c (a' +:+ sep +:+ b'))); [eauto|].
    destruct IH as (a & b & ->). eauto.
Qed.

Lemma cut_none sep s : cut sep s = None -> ~ Occurs sep s.
Proof.
  intros H Hocc. destruct (cut_complete _ _ Hocc) as (a & b & Hc). congruence.
Qed.

Lemma cut_first_cut sep s a b : cut sep s = Some (a, b) <-> FirstCut sep s a b.
Proof.
  split.
  - intros H. split; [exact (cut_sound _ _ _ _ H)|exact (cut_first _ _ _ _ H)].
  - intros [Heq Hmin].
    destruct (cut_complete sep s) as (a0 & b0 & Hc); [exists a, b; exact Heq|].
    pose proof (cut_sound _ _ _ _ Hc) as Heq0.
    pose proof (cut_first _ _ _ _ Hc _ _ Heq) as H1.
    pose proof (Hmin _ _ Heq0) as H2.
    rewrite Heq0 in Heq.
    destruct (app_eq_length _ _ _ _ Heq) as [-> Hb]; [lia|].
    apply (inj (String.append sep)) in Hb. subst b0. exact Hc.
Qed.

Lemma cut_length sep s a b :
  cut sep s = Some (a, b) ->
  String.length s = String.length a + String.length sep + String.length b.
Proof.
  intros H. rewrite (cut_sound _ _ _ _ H), !slength_app. lia.
Qed.

Lemma cut_empty sep : sep <> EmptyString -> cut sep EmptyString = None.
Proof. destruct sep; [congruence|reflexivity]. Qed.

(** *** [py_split] needs no more fuel than the length of the string *)

Lemma split_fuel_enough sep : sep <> EmptyString ->
  forall fuel fuel' s, String.length s <= fuel -> String.length s <= fuel' ->
    split_fuel fuel sep s = split_fuel fuel' sep s.
Proof.
  intros Hsep.
  assert (Hpos : 0 < String.length sep) by (destruct sep; simpl; [congruence|lia]).
  induction fuel as [|fuel IH]; intros fuel' s Hlen Hlen'.
  - destruct s; [|simpl in Hlen; lia].
    destruct fuel'; cbn [split_fuel]; rewrite ?cut_empty by assumption; reflexivity.
  - destruct fuel' as [|fuel'].
    + destruct s; [|simpl in Hlen'; lia].
      cbn [split_fuel]. rewrite cut_empty by assumption. reflexivity.
    + cbn [split_fuel]. destruct (cut sep s) as [[a b]|] eqn:Hc; [|reflexivity].
      f_equal. pose proof (cut_length _ _ _ _ Hc) as Hl. apply IH; lia.
Qed.

Lemma py_split_eq sep s : sep <> EmptyString ->
  py_split sep s =
    match cut sep s with
    | Some (a, b) => a :: py_split sep b
    | None => [s]
    end.
Proof.
  intros Hsep. unfold py_split.
  destruct (String.length s) as [|n] eqn:Hs.
  - destruct s; [|discriminate]. cbn [split_fuel].
    rewrite cut_empty by assumption. reflexivity.
  - cbn [split_fuel]. destruct (cut sep s) as [[a b]|] eqn:Hc; [|reflexivity].
    f_equal. pose proof (cut_length _ _ _ _ Hc) as Hl.
    assert (0 < String.length sep) by (destruct sep; simpl; [congruence|lia]).
    apply split_fuel_enough; [assumption|lia|lia].
Qed.

(** *** [strip] *)

Lemma all_chars_app (p : ascii -> bool) s t :
  all_chars p (s +:+ t) = all_chars p s && all_chars p t.
Proof.
  induction s as [|c s IH]; [reflexivity|].
  rewrite sapp_cons. simpl. rewrite IH, andb_assoc. reflexivity.
Qed.

Lemma lstrip_by_spec (p : ascii -> bool) s :
  exists a, s = a +:+ lstrip_by p s /\ all_chars p a = true /\
            starts_by p (lstrip_by p s) = false.
Proof.
  induction s as [|c s (a & Heq & Ha & Hs)].
  - exists EmptyString. repeat split.
  - simpl. destruct (p c) eqn:Hc.
    + exists (String c a). rewrite sapp_cons, <- Heq. simpl. rewrite Hc, Ha. repeat split.
      exact Hs.
    + exists EmptyString. repeat split. exact Hc.
Qed.

Lemma unsnoc_cons c s : exists init last, unsnoc (String c s) = Some (init, last).
Proof.
  revert c. induction s as [|d s IH]; intros c; [simpl; eauto|].
  destruct (IH d) as (init & last & H). cbn [unsnoc] in *. rewrite H. eauto.
Qed.

Lemma ends_by_cons (p : ascii -> bool) c d s : ends_by p (String c (String d s)) = ends_by p (String d s).
Proof.
  unfold ends_by. cbn [unsnoc].
  destruct (unsnoc_cons d s) as (init & last & H). cbn [unsnoc] in H. rewrite H.
  reflexivity.
Qed.

Lemma rstrip_by_eq (p : ascii -> bool) c s :
  rstrip_by p (String c s) =
    match rstrip_by p s with
    | EmptyString => if p c then EmptyString else String c EmptyString
    | String d r => String c (String d r)
    end.
Proof. reflexivity. Qed.

Lemma rstrip_by_all (p : ascii -> bool) s : all_chars p s = true -> rstrip_by p s = EmptyString.
Proof.
  induction s as [|c s IH]; [reflexivity|]. simpl. intros [Hc Hs]%andb_prop.
  rewrite (IH Hs), Hc. reflexivity.
Qed.

Lemma rstrip_by_app (p : ascii -> bool) s t :
  all_chars p t = true -> rstrip_by p (s +:+ t) = rstrip_by p s.
Proof.
  intros Ht. induction s as [|c s IH]; [apply rstrip_by_all, Ht|].
  rewrite sapp_cons, !rstrip_by_eq, IH. reflexivity.
Qed.

Lemma rstrip_by_id (p : ascii -> bool) s : ends_by p s = false -> rstrip_by p s = s.
Proof.
  induction s as [|c s IH]; [reflexivity|]. intros H.
  rewrite rstrip_by_eq. destruct s as [|d s].
  - unfold ends_by in H. simpl in H. simpl. rewrite H. reflexivity.
  - rewrite ends_by_cons in H. rewrite (IH H). reflexivity.
Qed.

Lemma rstrip_by_spec (p : ascii -> bool) s :
  exists b, s = rstrip_by p s +:+ b /\ all_chars p b = true /\
            ends_by p (rstrip_by p s) = false.
Proof.
  induction s as [|c s (b & Heq & Hb & He)].
  - exists EmptyString. repeat split.
  - rewrite rstrip_by_eq. destruct (rstrip_by p s) as [|d r] eqn:Hr.
    + rewrite sapp_nil_l in Heq. subst b. destruct (p c) eqn:Hc.
      * exists (String c s). simpl. rewrite Hc, Hb. repeat split.
      * exists s. repeat split; [exact Hb|]. unfold ends_by. simpl. exact Hc.
    + exists b. rewrite sapp_cons, <- Heq. repeat split; [exact Hb|].
      rewrite ends_by_cons. exact He.
Qed.

Lemma rstrip_by_starts (p : ascii -> bool) s :
  starts_by p s = false -> starts_by p (rstrip_by p s) = false.
Proof.
  destruct s as [|c s]; [reflexivity|]. intros H. rewrite rstrip_by_eq.
  destruct (rstrip_by p s); [|exact H].
  simpl in H. rewrite H. exact H.
Qed.

(** [strip_by p s] is what is left of [s] between its longest prefix and its
    longest suffix of characters that satisfy [p]. *)
Lemma strip_by_spec (p : ascii -> bool) s :
  exists a b, s = a +:+ strip_by p s +:+ b /\
    all_chars p a = true /\ all_chars p b = true /\
    starts_by p (strip_by p s) = false /\ ends_by p (strip_by p s) = false.
Proof.
  unfold strip_by.
  destruct (lstrip_by_spec p s) as (a & Heq & Ha & Hs).
  destruct (rstrip_by_spec p (lstrip_by p s)) as (b & Heq' & Hb & He).
  exists a, b. rewrite <- Heq'. repeat split; try assumption.
  apply rstrip_by_starts, Hs.
Qed.

Lemma mem_char_quotes c : mem_char c quotes = is_quote c.
Proof. unfold quotes, is_quote. simpl. rewrite orb_false_r. reflexivity. Qed.

Lemma strip_by_ext (p q : ascii -> bool) s :
  (forall c, p c = q c) -> strip_by p s = strip_by q s.
Proof.
  intros Hpq. unfold strip_by.
  assert (Hl : forall t, lstrip_by p t = lstrip_by q t).
  { induction t as [|c t IH]; [reflexivity|]. simpl. rewrite Hpq, IH. reflexivity. }
  assert (Hr : forall t, rstrip_by p t = rstrip_by q t).
  { induction t as [|c t IH]; [reflexivity|]. simpl. rewrite Hpq, IH. reflexivity. }
  rewrite Hl, Hr. reflexivity.
Qed.

Lemma lstrip_by_app (p : ascii -> bool) a s :
  all_chars p a = true -> lstrip_by p (a +:+ s) = lstrip_by p s.
Proof.
  induction a as [|c a IH]; [reflexivity|]. intros H. rewrite sapp_cons.
  simpl in *. apply andb_prop in H as [Hc Ha]. rewrite Hc. apply IH, Ha.
Qed.

Lemma lstrip_by_id (p : ascii -> bool) s : starts_by p s = false -> lstrip_by p s = s.
Proof. destruct s as [|c s]; [reflexivity|]. simpl. intros ->. reflexivity. Qed.

Lemma strip_by_unique (p : ascii -> bool) s a m b :
  s = a +:+ m +:+ b ->
  all_chars p a = true -> all_chars p b = true ->
  starts_by p m = false -> ends_by p m = false ->
  strip_by p s = m.
Proof.
  intros -> Ha Hb Hs He. unfold strip_by. rewrite lstrip_by_app by assumption.
  destruct m as [|c m].
  - rewrite sapp_nil_l. rewrite rstrip_by_all; [reflexivity|].
    clear -Hb. induction b as [|c b IH]; [reflexivity|].
    simpl in *. apply andb_prop in Hb as [Hc Hb]. rewrite Hc. apply IH, Hb.
  - rewrite lstrip_by_id by (rewrite sapp_cons; exact Hs).
    rewrite rstrip_by_app by assumption. apply rstrip_by_id, He.
Qed.

End StringFacts.

(** ** Substitution *)

Section SubstitutionFacts.

Implicit Types (s t name rest text : string) (c : ascii) (p : ascii -> bool).

Lemma span_sound p s a b :
  span p s = (a, b) -> s = a +:+ b /\ all_chars p a = true /\ starts_by p b = false.
Proof.
  revert a b. induction s as [|c s IH]; intros a b H; simpl in H.
  - injection H as <- <-. repeat split.
  - destruct (p c) eqn:Hc.
    + destruct (span p s) as [a0 b0]. injection H as <- <-.
      destruct (IH _ _ eq_refl) as (-> & Ha & Hb).
      rewrite sapp_cons. simpl. rewrite Hc, Ha. repeat split. exact Hb.
    + injection H as <- <-. repeat split. exact Hc.
Qed.

Lemma span_app p a b :
  all_chars p a = true -> starts_by p b = false -> span p (a +:+ b) = (a, b).
Proof.
  intros Ha Hb. induction a as [|c a IH].
  - rewrite sapp_nil_l. destruct b as [|d b]; [reflexivity|].
    simpl in *. rewrite Hb. reflexivity.
  - simpl in Ha. apply andb_prop in Ha as [Hc Ha].
    rewrite sapp_cons. simpl. rewrite Hc, (IH Ha). reflexivity.
Qed.

Lemma span_app_stop p s t :
  t <> EmptyString -> starts_by p t = false ->
  span p (s +:+ t) = (fst (span p s), snd (span p s) +:+ t).
Proof.
  intros Hne Ht. destruct (span p s) as [a b] eqn:Hs.
  destruct (span_sound _ _ _ _ Hs) as (-> & Ha & Hb).
  rewrite sapp_assoc. apply span_app; [exact Ha|].
  destruct b; [exact Ht|exact Hb].
Qed.

Lemma placeholder_app name rest :
  placeholder name +:+ rest =
    String "{" (String "{" (name +:+ String "}" (String "}" rest))).
Proof. unfold placeholder. rewrite !sapp_assoc. reflexivity. Qed.

Lemma is_name_all name : is_name name = true -> all_chars isword name = true.
Proof. destruct name; [discriminate|]. intros H. exact H. Qed.

Lemma match_placeholder_eq c1 c2 t :
  match_placeholder (String c1 (String c2 t)) =
    if Ascii.eqb c1 "{" && Ascii.eqb c2 "{" then
      match span isword t with
      | (String n ns, String d1 (String d2 rest)) =>
          if Ascii.eqb d1 "}" && Ascii.eqb d2 "}" then Some (String n ns, rest)
          else None
      | _ => None
      end
    else None.
Proof. reflexivity. Qed.

(** The matcher finds exactly the well-formed tokens. *)
Lemma match_placeholder_spec s name rest :
  match_placeholder s = Some (name, rest) <->
  is_name name = true /\ s = placeholder name +:+ rest.
Proof.
  split.
  - destruct s as [|c1 [|c2 t]]; try discriminate.
    rewrite match_placeholder_eq.
    destruct (Ascii.eqb c1 "{") eqn:E1; [|discriminate].
    destruct (Ascii.eqb c2 "{") eqn:E2; [|discriminate].
    cbn [andb].
    destruct (span isword t) as [a b] eqn:Hs.
    destruct a as [|n ns]; [discriminate|].
    destruct b as [|d1 [|d2 r]]; try discriminate.
    destruct (Ascii.eqb d1 "}") eqn:E3; [|discriminate].
    destruct (Ascii.eqb d2 "}") eqn:E4; [|discriminate].
    cbn [andb]. intros H. injection H as <- <-.
    apply Ascii.eqb_eq in E1, E2, E3, E4. subst.
    destruct (span_sound _ _ _ _ Hs) as (-> & Ha & _).
    split; [exact Ha|]. rewrite placeholder_app. reflexivity.
  - intros [Hn ->]. rewrite placeholder_app, match_placeholder_eq.
    cbn [Ascii.eqb Bool.eqb andb].
    rewrite span_app; [|apply is_name_all, Hn|reflexivity].
    destruct name as [|n ns]; [discriminate|]. reflexivity.
Qed.

Lemma match_placeholder_none s :
  match_placeholder s = None <-> ~ starts_with_placeholder s.
Proof.
  split.
  - intros H (name & rest & Hn & Heq).
    assert (match_placeholder s = Some (name, rest)) by (apply match_placeholder_spec; auto).
    congruence.
  - intros H. destruct (match_placeholder s) as [[name rest]|] eqn:Hm; [|reflexivity].
    exfalso. apply H. exists name, rest. apply match_placeholder_spec, Hm.
Qed.

Lemma match_placeholder_length s name rest :
  match_placeholder s = Some (name, rest) -> String.length rest < String.length s.
Proof.
  intros [_ ->]%match_placeholder_spec.
  rewrite placeholder_app. simpl. rewrite slength_app. simpl. lia.
Qed.

(** A token that starts right after [s] does not change what matches at the
    start of [s]. *)
Lemma match_placeholder_app c t x :
  match_placeholder (String c t +:+ String "{" (String "{" x)) =
    match match_placeholder (String c t) with
    | Some (name, rest) => Some (name, rest +:+ String "{" (String "{" x))
    | None => None
    end.
Proof.
  destruct t as [|c2 t].
  - rewrite sapp_cons, sapp_nil_l, match_placeholder_eq.
    destruct (Ascii.eqb c "{"); reflexivity.
  - rewrite !sapp_cons, !match_placeholder_eq.
    destruct (Ascii.eqb c "{" && Ascii.eqb c2 "{"); [|reflexivity].
    rewrite span_app_stop by (discriminate || reflexivity).
    destruct (span isword t) as [a b]. cbn [fst snd].
    destruct a as [|n ns]; [reflexivity|].
    destruct b as [|d1 [|d2 r]].
    + reflexivity.
    + rewrite sapp_cons, sapp_nil_l.
      destruct (Ascii.eqb d1 "}"); reflexivity.
    + rewrite !sapp_cons. destruct (Ascii.eqb d1 "}" && Ascii.eqb d2 "}"); reflexivity.
Qed.

(** *** [re_sub] needs no more fuel than the length of the string *)

Lemma re_sub_fuel_enough repl fuel :
  forall fuel' s, String.length s <= fuel -> String.length s <= fuel' ->
    re_sub_fuel fuel repl s = re_sub_fuel fuel' repl s.
Proof.
  induction fuel as [|fuel IH]; intros fuel' s Hlen Hlen'.
  - destruct s; [|simpl in Hlen; lia]. destruct fuel'; reflexivity.
  - destruct fuel' as [|fuel'].
    + destruct s; [reflexivity|simpl in Hlen'; lia].
    + cbn [re_sub_fuel]. destruct (match_placeholder s) as [[name rest]|] eqn:Hm.
      * apply match_placeholder_length in Hm. f_equal. apply IH; lia.
      * destruct s as [|c t]; [reflexivity|]. simpl in Hlen, Hlen'. f_equal. apply IH; lia.
Qed.

Lemma re_sub_eq repl s :
  re_sub repl s =
    match match_placeholder s with
    | Some (name, rest) => repl (placeholder name) name +:+ re_sub repl rest
    | None =>
        match s with
        | EmptyString => EmptyString
        | String c t => String c (re_sub repl t)
        end
    end.
Proof.
  unfold re_sub. destruct s as [|c t]; [reflexivity|].
  cbn [String.length re_sub_fuel].
  destruct (match_placeholder (String c t)) as [[name rest]|] eqn:Hm; [|reflexivity].
  apply match_placeholder_length in Hm. simpl in Hm.
  f_equal. apply re_sub_fuel_enough; lia.
Qed.

Lemma substitute_vars_eq environ text :
  substitute_vars environ text =
    match match_placeholder text with
    | Some (name, rest) =>
        getenv environ name (placeholder name) +:+ substitute_vars environ rest
    | None =>
        match text with
        | EmptyString => EmptyString
        | String c t => String c (substitute_vars environ t)
        end
    end.
Proof. unfold substitute_vars. apply re_sub_eq. Qed.

Lemma substitute_vars_token environ name rest :
  is_name name = true ->
  substitute_vars environ (placeholder name +:+ rest) =
    getenv environ name (placeholder name) +:+ substitute_vars environ rest.
Proof.
  intros Hn. rewrite substitute_vars_eq.
  assert (match_placeholder (placeholder name +:+ rest) = Some (name, rest)) as ->
    by (apply match_placeholder_spec; auto).
  reflexivity.
Qed.

(** What precedes a token is rewritten on its own. *)
Lemma substitute_vars_before environ x :
  forall n pre, String.length pre <= n ->
    substitute_vars environ (pre +:+ String "{" (String "{" x)) =
      substitute_vars environ pre +:+ substitute_vars environ (String "{" (String "{" x)).
Proof.
  induction n as [|n IH]; intros pre Hlen.
  - destruct pre; [reflexivity|simpl in Hlen; lia].
  - destruct pre as [|c t]; [reflexivity|].
    rewrite (substitute_vars_eq environ (String c t +:+ _)), match_placeholder_app.
    rewrite (substitute_vars_eq environ (String c t)).
    destruct (match_placeholder (String c t)) as [[name rest]|] eqn:Hm.
    + apply match_placeholder_length in Hm. simpl in Hm, Hlen.
      rewrite IH by lia. rewrite sapp_assoc. reflexivity.
    + rewrite sapp_cons. simpl in Hlen. rewrite IH by lia. reflexivity.
Qed.

End SubstitutionFacts.

(** ** Splitting an assertion *)

Section SplitFacts.

Implicit Types (s sep lhs rest rhs mid : string).

Lemma py_split_first sep s lhs rest :
  sep <> EmptyString -> FirstCut sep s lhs rest ->
  py_split sep s = lhs :: py_split sep rest.
Proof.
  intros Hsep H%cut_first_cut. rewrite py_split_eq by assumption. rewrite H. reflexivity.
Qed.

Lemma py_split_no_sep sep s :
  sep <> EmptyString -> ~ Occurs sep s -> py_split sep s = [s].
Proof.
  intros Hsep H. rewrite py_split_eq by assumption.
  destruct (cut sep s) as [[a b]|] eqn:Hc; [|reflexivity].
  exfalso. apply H. exists a, b. apply (cut_sound _ _ _ _ Hc).
Qed.


Lemma py_split_up_to_next sep s mid :
  sep <> EmptyString -> UpToNext sep s mid -> exists tl, py_split sep s = mid :: tl.
Proof.
  intros Hsep [[Hno ->]|[tail Hcut]].
  - rewrite py_split_no_sep by assumption. eauto.
  - rewrite (py_split_first _ _ _ _ Hsep Hcut). eauto.
Qed.

(** The first two parts of a split. *)
Lemma py_split_two sep s lhs rest rhs :
  sep <> EmptyString -> FirstCut sep s lhs rest -> UpToNext sep rest rhs ->
  getitem (py_split sep s) 0 = Ok lhs /\ getitem (py_split sep s) 1 = Ok rhs.
Proof.
  intros Hsep Hcut Hnext. rewrite (py_split_first _ _ _ _ Hsep Hcut).
  destruct (py_split_up_to_next _ _ _ Hsep Hnext) as [tl ->]. split; reflexivity.
Qed.



Lemma getitem_second_missing sep s :
  sep <> EmptyString -> ~ Occurs sep s ->
  getitem (py_split sep s) 1 = Raise (IndexError "list index out of range").
Proof.
  intros Hsep Hno. rewrite py_split_no_sep by assumption. reflexivity.
Qed.

Lemma eqeq_nonempty : "==" <> EmptyString.
Proof. discriminate. Qed.

(** *** [py_replace] needs no more fuel than the length of the string *)




End SplitFacts.

(** ** The evaluator *)

Section EvaluatorFacts.

Variable response : Response.

Implicit Types (results : Results) (assertion entry : string).

Lemma merge_no_results_r results : merge results no_results = results.
Proof. destruct results. unfold merge. simpl. rewrite !List.app_nil_r. reflexivity. Qed.

Lemma merge_no_results_l results : merge no_results results = results.
Proof. destruct results. reflexivity. Qed.

Lemma merge_assoc r1 r2 r3 : merge (merge r1 r2) r3 = merge r1 (merge r2 r3).
Proof. unfold merge. simpl. rewrite <- !List.app_assoc. reflexivity. Qed.

Lemma append_passed_merge results entry :
  append_passed results entry = merge results (append_passed no_results entry).
Proof. unfold append_passed, merge. simpl. rewrite List.app_nil_r. reflexivity. Qed.

Lemma append_failed_merge results entry :
  append_failed results entry = merge results (append_failed no_results entry).
Proof. unfold append_failed, merge. simpl. rewrite List.app_nil_r. reflexivity. Qed.

Lemma startswith_body_not_status assertion :
  startswith assertion "body." = true -> startswith assertion "status_code" = false.
Proof.
  unfold startswith. intros H%prefix_inv. rewrite H. reflexivity.
Qed.

(** Whether an assertion raises does not depend on the results so far, and
    what it adds to them does not either. *)
Lemma try_assertion_merge results assertion :
  try_assertion response results assertion =
    match try_assertion response no_results assertion with
    | Ok added => Ok (merge results added)
    | Raise e => Raise e
    end.
Proof.
  unfold try_assertion, status_branch, body_branch, body_check, bind.
  destruct (startswith assertion "status_code").
  - destruct (getitem (py_split "==" assertion) 1); [|reflexivity].
    destruct (py_int (py_strip a)); [|reflexivity].
    destruct (status_code response =? a0)%Z;
      [rewrite append_passed_merge|rewrite append_failed_merge]; reflexivity.
  - destruct (startswith assertion "body."); [|rewrite merge_no_results_r; reflexivity].
    destruct (body_path assertion); [|reflexivity].
    destruct (body_expected assertion); [|reflexivity].
    destruct (body_value response a); [destruct (String.eqb _ _)|];
      [rewrite append_passed_merge|rewrite append_failed_merge|rewrite append_failed_merge];
      reflexivity.
Qed.

Lemma run_assertion_merge results assertion :
  run_assertion response results assertion =
    merge results (run_assertion response no_results assertion).
Proof.
  unfold run_assertion. rewrite try_assertion_merge.
  destruct (try_assertion response no_results assertion); [reflexivity|].
  apply append_failed_merge.
Qed.

Lemma fold_run_assertion results assertions :
  fold_left (run_assertion response) assertions results =
    merge results (run_test response assertions).
Proof.
  unfold run_test. revert results.
  induction assertions as [|assertion rest IH]; intros results.
  - simpl. rewrite merge_no_results_r. reflexivity.
  - simpl. rewrite IH, (IH (run_assertion _ no_results _)).
    rewrite run_assertion_merge, merge_assoc. reflexivity.
Qed.

Lemma run_test_cons assertion rest :
  run_test response (assertion :: rest) =
    merge (run_assertion response no_results assertion) (run_test response rest).
Proof. unfold run_test at 1. simpl. apply fold_run_assertion. Qed.

(** A batch is evaluated one assertion after the other. *)
Lemma run_test_app before after :
  run_test response (before ++ after) =
    merge (run_test response before) (run_test response after).
Proof.
  unfold run_test at 1. rewrite fold_left_app. apply fold_run_assertion.
Qed.

Lemma run_test_middle before assertion after :
  run_test response (before ++ assertion :: after) =
    merge (run_test response before)
      (merge (run_assertion response no_results assertion) (run_test response after)).
Proof. rewrite run_test_app, run_test_cons. reflexivity. Qed.



End EvaluatorFacts.

(** * The claims *)

(** ** Substitution *)

(** C2.  A substituted value is not read again: wherever a well-formed token
    whose name is bound stands in the text, the result is the rewriting of
    what precedes it, then the bound value as it is, then the rewriting of
    what follows it.  In particular, in every environment that binds [a] to
    the text of the token for [b] and [b] to [x], the token for [a] becomes
    the token for [b], not [x]. *)
Theorem substituted_value_not_rescanned :
  (forall (environ : gmap string string) (pre name post value : string),
      is_name name = true ->
      environ !! name = Some value ->
      substitute_vars environ (pre +:+ placeholder name +:+ post) =
        substitute_vars environ pre +:+ value +:+ substitute_vars environ post) /\
  (forall environ : gmap string string,
      environ !! "a" = Some "{{b}}" ->
      environ !! "b" = Some "x" ->
      substitute_vars environ "{{a}}" = "{{b}}").
Proof.
  assert (Hgen : forall (environ : gmap string string) (pre name post value : string),
      is_name name = true ->
      environ !! name = Some value ->
      substitute_vars environ (pre +:+ placeholder name +:+ post) =
        substitute_vars environ pre +:+ value +:+ substitute_vars environ post).
  { intros environ pre name post value Hname Hbound.
    rewrite placeholder_app.
    rewrite (substitute_vars_before environ _ (String.length pre) pre (le_n _)).
    rewrite <- placeholder_app, substitute_vars_token by assumption.
    unfold getenv. rewrite Hbound. reflexivity. }
  split; [exact Hgen|].
  intros environ Ha _.
  exact (Hgen environ EmptyString "a" EmptyString "{{b}}" eq_refl Ha).
Qed.

Lemma substituted_value_not_rescanned_witness :
  env_ab !! "a" = Some "{{b}}" /\ env_ab !! "b" = Some "x" /\
  substitute_vars env_ab "{{a}}" = "{{b}}".
Proof.
  split; [vm_compute; reflexivity|]. split; [vm_compute; reflexivity|].
  apply (proj2 substituted_value_not_rescanned env_ab); vm_compute; reflexivity.
Defined.

(** C3.  [substitute_vars] computes the rewriting that the specification
    describes, and nothing else does: tokens are taken left to right without
    overlap, a bound name gives its value, an unbound name leaves the whole
    token, and every character outside a token is copied.  The malformed
    token with a hyphen in its name is copied as it is. *)
Theorem substitute_vars_rewrites_tokens (environ : gmap string string) :
  (forall text, Substitution environ text (substitute_vars environ text)) /\
  (forall text out, Substitution environ text out -> out = substitute_vars environ text) /\
  substitute_vars environ "{{a-b}}" = "{{a-b}}".
Proof.
  split; [|split].
  - assert (H : forall n text, String.length text <= n ->
                  Substitution environ text (substitute_vars environ text)).
    { induction n as [|n IH]; intros text Hlen.
      - destruct text; [apply subst_end|simpl in Hlen; lia].
      - rewrite substitute_vars_eq.
        destruct (match_placeholder text) as [[name rest]|] eqn:Hm.
        + pose proof (match_placeholder_length _ _ _ Hm) as Hlt.
          apply match_placeholder_spec in Hm as [Hname ->].
          unfold getenv. destruct (environ !! name) as [value|] eqn:Hv.
          * apply subst_bound; [assumption..|]. apply IH. lia.
          * apply subst_unbound; [assumption..|]. apply IH. lia.
        + destruct text as [|c t]; [apply subst_end|].
          apply subst_other; [apply match_placeholder_none, Hm|].
          apply IH. simpl in Hlen. lia. }
    intros text. apply (H (String.length text)). lia.
  - intros text out H.
    induction H as [|name value rest out Hname Hv _ IH|name rest out Hname Hv _ IH
                    |c rest out Hno _ IH].
    + reflexivity.
    + rewrite substitute_vars_token by assumption. unfold getenv. rewrite Hv, IH. reflexivity.
    + rewrite substitute_vars_token by assumption. unfold getenv. rewrite Hv, IH. reflexivity.
    + rewrite substitute_vars_eq.
      apply match_placeholder_none in Hno. rewrite Hno, IH. reflexivity.
  - reflexivity.
Qed.

(** ** The evaluator *)

(** C1.  An assertion that starts with neither [status_code] nor [body.]
    leaves no outcome: the batch gives what it gives without it, so the two
    lists together hold fewer entries than there are assertions. *)
Theorem unprefixed_assertion_is_dropped
    (response : Response) (before after : list string) (assertion : string) :
  startswith assertion "status_code" = false ->
  startswith assertion "body." = false ->
  run_test response (before ++ assertion :: after) = run_test response (before ++ after).
Proof.
  intros Hs Hb. rewrite run_test_middle, run_test_app.
  unfold run_assertion, try_assertion. rewrite Hs, Hb.
  rewrite merge_no_results_l. reflexivity.
Qed.

Lemma unprefixed_assertion_is_dropped_witness :
  startswith "elapsed < 1" "status_code" = false /\
  startswith "elapsed < 1" "body." = false /\
  run_test response_404 ([] ++ "elapsed < 1" :: []) = run_test response_404 ([] ++ []).
Proof.
  split; [reflexivity|]. split; [reflexivity|].
  apply (unprefixed_assertion_is_dropped response_404 [] [] "elapsed < 1"); reflexivity.
Defined.











(** C8, as stated, fails on a doubly quoted value: both layers of quotes go,
    so the assertion below is compared with the bare [x] and fails against a
    field that holds [x] in one layer of quotes. *)
Lemma doubled_quotes_are_all_stripped :
  startswith "body.x == ''x''" "body." = true /\
  FirstCut "==" "body.x == ''x''" "body.x " " ''x''" /\
  UpToNext "==" " ''x''" " ''x''" /\
  strip_one_layer (py_strip " ''x''") = "'x'" /\
  body_expected "body.x == ''x''" = Ok "x" /\
  body_expected "body.x == ''x''" <> Ok (strip_one_layer (py_strip " ''x''")) /\
  run_test (response_x (JStr "'x'")) ["body.x == ''x''"] =
    {| passed := []; failed := ["body.x == ''x'' (got 'x')"] |}.
Proof.
  split; [reflexivity|]. split; [apply cut_first_cut; reflexivity|].
  split; [left; split; [apply cut_none|]; reflexivity|].
  split; [reflexivity|]. split; [reflexivity|]. split; [|reflexivity].
  vm_compute. discriminate.
Qed.

(** C8, amended.  The expected value of a [body.] assertion is its
    right-hand side without the whitespace around it and then without the
    quote characters around that: every leading and every trailing quote
    goes, single or double, however many there are; nothing is taken when
    the trimmed text neither starts nor ends with a quote. *)
Theorem expected_value_loses_surrounding_quotes
    (response : Response) (results : Results) (assertion lhs rest rhs : string) :
  startswith assertion "body." = true ->
  FirstCut "==" assertion lhs rest ->
  UpToNext "==" rest rhs ->
  exists expected spaces spaces' opening closing,
    run_assertion response results assertion =
      body_check response results assertion
        (py_replace "body." EmptyString (py_strip lhs)) expected /\
    rhs = spaces +:+ (opening +:+ expected +:+ closing) +:+ spaces' /\
    all_chars isspace spaces = true /\ all_chars isspace spaces' = true /\
    starts_by isspace (opening +:+ expected +:+ closing) = false /\
    ends_by isspace (opening +:+ expected +:+ closing) = false /\
    all_chars is_quote opening = true /\ all_chars is_quote closing = true /\
    starts_by is_quote expected = false /\ ends_by is_quote expected = false /\
    (starts_by is_quote (py_strip rhs) = false ->
     ends_by is_quote (py_strip rhs) = false -> expected = py_strip rhs).
Proof.
  intros Hb Hcut Hnext.
  destruct (py_split_two _ _ _ _ _ eqeq_nonempty Hcut Hnext) as [Hlhs Hrhs].
  assert (Hq : py_strip_chars quotes (py_strip rhs) = strip_by is_quote (py_strip rhs))
    by (apply strip_by_ext, mem_char_quotes).
  destruct (strip_by_spec isspace rhs) as (w & w' & Hw & Hsp & Hsp' & Hst & Hen).
  destruct (strip_by_spec is_quote (py_strip rhs)) as (o & o' & Ho & Hqo & Hqo' & Hqs & Hqe).
  exists (strip_by is_quote (py_strip rhs)), w, w', o, o'.
  fold (py_strip rhs) in Hw, Hst, Hen.
  split.
  { unfold run_assertion, try_assertion, body_branch, body_path, body_expected.
    rewrite (startswith_body_not_status _ Hb), Hb, Hlhs, Hrhs. cbn [bind].
    fold quotes. rewrite Hq. reflexivity. }
  rewrite <- Ho. repeat (split; [assumption|]).
  intros Hs He. apply (strip_by_unique is_quote _ EmptyString _ EmptyString);
    [rewrite sapp_nil_r; reflexivity|reflexivity|reflexivity|assumption|assumption].
Qed.

Lemma expected_value_loses_surrounding_quotes_witness :
  startswith "body.x == ''x''" "body." = true /\
  FirstCut "==" "body.x == ''x''" "body.x " " ''x''" /\
  UpToNext "==" " ''x''" " ''x''" /\
  exists expected opening closing,
    py_strip " ''x''" = opening +:+ expected +:+ closing /\
    starts_by is_quote expected = false /\ ends_by is_quote expected = false.
Proof.
  assert (Hcut : FirstCut "==" "body.x == ''x''" "body.x " " ''x''")
    by (apply cut_first_cut; reflexivity).
  assert (Hnext : UpToNext "==" " ''x''" " ''x''")
    by (left; split; [apply cut_none|]; reflexivity).
  split; [reflexivity|]. split; [exact Hcut|]. split; [exact Hnext|].
  destruct (expected_value_loses_surrounding_quotes (response_x (JStr "x")) no_results
              "body.x == ''x''" "body.x " " ''x''" " ''x''" eq_refl Hcut Hnext)
    as (expected & spaces & spaces' & opening & closing
        & _ & Hrhs & Hsp & Hsp' & Hst & Hen & _ & _ & Hqs & Hqe & _).
  exists expected, opening, closing. split; [|split; assumption].
  unfold py_strip. apply (strip_by_unique isspace _ spaces _ spaces'); assumption.
Defined.

(** C9, as stated, fails on an exception of the traversal: subscripting a
    number raises, the inner handler takes it, and the entry carries the
    coarse reason, which no message of the form of the outer handler
    equals. *)
Lemma traversal_error_has_coarse_reason :
  raised response_a1 "body.a.0 == 'x'" = Some (inr TypeError) /\
  run_assertion response_a1 no_results "body.a.0 == 'x'" =
    append_failed no_results "body.a.0 == 'x' (invalid path or response not JSON)" /\
  forall msg,
    run_assertion response_a1 no_results "body.a.0 == 'x'" <>
      append_failed no_results ("body.a.0 == 'x'" +:+ " (error: " +:+ msg +:+ ")").
Proof.
  split; [reflexivity|]. split; [reflexivity|].
  intros msg H. vm_compute in H. discriminate H.
Qed.

(** C9, amended.  Whatever exception the evaluation of one assertion raises,
    the assertion joins [failed] and the assertions around it are evaluated
    as they would be without it.  An exception that leaves the body of the
    outer [try] (no [==] to split at, a right-hand side of [status_code]
    that is no integer) is recorded with its message; one raised while the
    body is parsed or traversed is recorded with the coarse reason. *)
Theorem exception_fails_one_assertion_only
    (response : Response) (before after : list string) (assertion : string)
    (exc : Exception + LookupFailure) :
  raised response assertion = Some exc ->
  run_test response (before ++ assertion :: after) =
    merge (run_test response before)
      (merge
         (append_failed no_results
            (assertion +:+
               match exc with
               | inl e => " (error: " +:+ exception_str e +:+ ")"
               | inr _ => " (invalid path or response not JSON)"
               end))
         (run_test response after)).
Proof.
  intros Hraised. rewrite run_test_middle. do 2 f_equal.
  unfold raised in Hraised. unfold run_assertion.
  destruct (try_assertion response no_results assertion) as [added|e] eqn:Htry.
  - unfold try_assertion in Htry.
    destruct (startswith assertion "status_code"); [discriminate|].
    destruct (startswith assertion "body."); [|discriminate].
    unfold body_branch in Htry.
    destruct (body_path assertion) as [path|]; [|discriminate].
    destruct (body_expected assertion) as [expected|]; [|discriminate].
    cbn [bind] in Htry. injection Htry as <-. unfold body_check.
    destruct (body_value response path); [discriminate|].
    injection Hraised as <-. reflexivity.
  - injection Hraised as <-. reflexivity.
Qed.

Lemma exception_fails_one_assertion_only_witness :
  raised response_404 "status_code == abc"
    = Some (inl (ValueError "invalid literal for int() with base 10: 'abc'")) /\
  run_test response_404 (["status_code == 404"] ++ "status_code == abc" :: ["body.x"]) =
    {| passed := ["status_code == 404"];
       failed := ["status_code == abc (error: invalid literal for int() with base 10: 'abc')";
                  "body.x (error: list index out of range)"] |}.
Proof.
  split; [reflexivity|].
  exact (exception_fails_one_assertion_only response_404
           ["status_code == 404"] ["body.x"] "status_code == abc"
           (inl (ValueError "invalid literal for int() with base 10: 'abc'")) eq_refl).
Defined.



(** * Further properties *)

(** ** Substitution *)

Section SubstitutionExtras.

Implicit Types (text name rest : string) (environ : gmap string string).

Lemma Occurs_cons sep c t : Occurs sep t -> Occurs sep (String c t).
Proof. intros (a & b & ->). exists (String c a), b. reflexivity. Qed.

Lemma Occurs_app_r sep s t : Occurs sep t -> Occurs sep (s +:+ t).
Proof. intros (a & b & ->). exists (s +:+ a), b. rewrite sapp_assoc. reflexivity. Qed.

Lemma Occurs_here sep t : Occurs sep (sep +:+ t).
Proof. exists EmptyString, t. reflexivity. Qed.

Lemma Occurs_placeholder_braces name text :
  Occurs (placeholder name) text -> Occurs "{{" text.
Proof.
  intros (a & b & ->). exists a, (name +:+ "}}" +:+ b).
  unfold placeholder. rewrite !sapp_assoc. reflexivity.
Qed.

(** Two replacement functions that agree on the tokens of a text give the
    same result on it. *)
Lemma re_sub_agree (repl1 repl2 : string -> string -> string) :
  forall n text, String.length text <= n ->
    (forall name, is_name name = true -> Occurs (placeholder name) text ->
                  repl1 (placeholder name) name = repl2 (placeholder name) name) ->
    re_sub repl1 text = re_sub repl2 text.
Proof.
  induction n as [|n IH]; intros text Hlen Hagree.
  - destruct text; [reflexivity|simpl in Hlen; lia].
  - rewrite (re_sub_eq repl1), (re_sub_eq repl2).
    destruct (match_placeholder text) as [[name rest]|] eqn:Hm.
    + pose proof (match_placeholder_length _ _ _ Hm) as Hlt.
      apply match_placeholder_spec in Hm as [Hname ->].
      rewrite (Hagree name Hname (Occurs_here _ _)). f_equal.
      apply IH; [lia|]. intros name' Hname' Hocc.
      apply Hagree; [assumption|]. apply Occurs_app_r, Hocc.
    + destruct text as [|c t]; [reflexivity|]. f_equal.
      apply IH; [simpl in Hlen; lia|]. intros name' Hname' Hocc.
      apply Hagree; [assumption|]. apply Occurs_cons, Hocc.
Qed.

Lemma re_sub_keep : forall n text, String.length text <= n ->
  re_sub (fun group0 _ => group0) text = text.
Proof.
  induction n as [|n IH]; intros text Hlen.
  - destruct text; [reflexivity|simpl in Hlen; lia].
  - rewrite re_sub_eq. destruct (match_placeholder text) as [[name rest]|] eqn:Hm.
    + pose proof (match_placeholder_length _ _ _ Hm) as Hlt.
      apply match_placeholder_spec in Hm as [Hname ->]. rewrite IH by lia. reflexivity.
    + destruct text as [|c t]; [reflexivity|]. rewrite IH by (simpl in Hlen; lia).
      reflexivity.
Qed.

Lemma substitute_vars_keeps environ text :
  (forall name, is_name name = true -> Occurs (placeholder name) text ->
                environ !! name = None) ->
  substitute_vars environ text = text.
Proof.
  intros Hnone. unfold substitute_vars.
  rewrite (re_sub_agree _ (fun group0 _ => group0) (String.length text) text (le_n _)).
  - apply (re_sub_keep (String.length text)). lia.
  - intros name Hname Hocc. unfold getenv. rewrite (Hnone name Hname Hocc). reflexivity.
Qed.

(** X1.  A text in which two opening braces never follow one another comes
    back as it is, whatever the environment holds. *)
Theorem substitute_vars_without_braces environ text :
  ~ Occurs "{{" text -> substitute_vars environ text = text.
Proof.
  intros Hno. apply substitute_vars_keeps. intros name _ Hocc.
  exfalso. apply Hno. apply (Occurs_placeholder_braces name), Hocc.
Qed.

Lemma substitute_vars_without_braces_witness :
  ~ Occurs "{{" "https://api.test/{a}/{b}" /\
  substitute_vars env_ab "https://api.test/{a}/{b}" = "https://api.test/{a}/{b}".
Proof.
  assert (Hno : ~ Occurs "{{" "https://api.test/{a}/{b}") by (apply cut_none; reflexivity).
  split; [exact Hno|].
  exact (substitute_vars_without_braces env_ab "https://api.test/{a}/{b}" Hno).
Defined.

(** X2.  When no name that stands in a token of the text is bound, the text
    comes back as it is: every unresolved token stays readable. *)
Theorem substitute_vars_unbound_tokens_stay environ text :
  (forall name, is_name name = true -> Occurs (placeholder name) text ->
                environ !! name = None) ->
  substitute_vars environ text = text.
Proof. apply substitute_vars_keeps. Qed.

Lemma substitute_vars_unbound_tokens_stay_witness :
  substitute_vars ∅ "{{host}}/v1/{{id}}" = "{{host}}/v1/{{id}}".
Proof.
  apply (substitute_vars_unbound_tokens_stay ∅ "{{host}}/v1/{{id}}").
  intros name _ _. apply lookup_empty.
Defined.

(** X3.  The result depends on the environment only through the names that
    stand in tokens of the text: two environments that agree on those give
    the same result. *)
Theorem substitute_vars_reads_tokens_only (environ1 environ2 : gmap string string) text :
  (forall name, is_name name = true -> Occurs (placeholder name) text ->
                environ1 !! name = environ2 !! name) ->
  substitute_vars environ1 text = substitute_vars environ2 text.
Proof.
  intros Hagree. unfold substitute_vars.
  apply (re_sub_agree _ _ (String.length text) text (le_n _)).
  intros name Hname Hocc. unfold getenv. rewrite (Hagree name Hname Hocc). reflexivity.
Qed.

Lemma substitute_vars_reads_tokens_only_witness :
  substitute_vars env_ab "{{a}}/x" = substitute_vars (<["c" := "z"]> env_ab) "{{a}}/x".
Proof.
  apply (substitute_vars_reads_tokens_only env_ab (<["c" := "z"]> env_ab) "{{a}}/x").
  intros name _ Hocc. destruct (decide (name = "c")) as [->|Hne].
  - exfalso. revert Hocc. apply cut_none. reflexivity.
  - symmetry. apply lookup_insert_ne. congruence.
Defined.

End SubstitutionExtras.

(** ** The evaluator *)

Section EvaluatorExtras.

Variable response : Response.

Implicit Types (assertion : string) (assertions : list string).

(** What one assertion adds: itself to [passed], or itself with a reason in
    brackets to [failed], or nothing when it has neither prefix. *)
Lemma run_assertion_outcome assertion :
  let added := run_assertion response no_results assertion in
  (recognised assertion = true /\
   (added = append_passed no_results assertion \/
    exists why, added = append_failed no_results (assertion +:+ " (" +:+ why +:+ ")"))) \/
  (recognised assertion = false /\ added = no_results).
Proof.
  unfold recognised, run_assertion, try_assertion.
  destruct (startswith assertion "status_code") eqn:Hs.
  - left. split; [reflexivity|]. unfold status_branch.
    destruct (getitem (py_split "==" assertion) 1) as [rhs|e]; cbn [bind].
    + destruct (py_int (py_strip rhs)) as [n|e]; cbn [bind].
      * destruct (status_code response =? n)%Z; [left; reflexivity|].
        right. exists ("got " +:+ str_int (status_code response)). reflexivity.
      * right. exists ("error: " +:+ exception_str e). reflexivity.
    + right. exists ("error: " +:+ exception_str e). reflexivity.
  - destruct (startswith assertion "body.") eqn:Hb; [|right; split; reflexivity].
    left. split; [reflexivity|]. unfold body_branch.
    destruct (body_path assertion) as [path|e]; cbn [bind];
      [|right; exists ("error: " +:+ exception_str e); reflexivity].
    destruct (body_expected assertion) as [expected|e]; cbn [bind];
      [|right; exists ("error: " +:+ exception_str e); reflexivity].
    unfold body_check. destruct (body_value response path) as [value|e].
    + destruct (String.eqb (py_str value) expected); [left; reflexivity|].
      right. exists ("got " +:+ py_str value). reflexivity.
    + right. exists "invalid path or response not JSON". reflexivity.
Qed.

(** X4.  The passed list holds input assertions only, unchanged and in their
    input order: it is the input with some assertions left out. *)
Theorem passed_is_subsequence_of_input assertions :
  passed (run_test response assertions) `sublist_of` assertions.
Proof.
  induction assertions as [|assertion rest IH]; [reflexivity|].
  rewrite run_test_cons. cbn [merge passed].
  destruct (run_assertion_outcome assertion) as [[_ [-> | [why ->]]] | [_ ->]]; cbn.
  - apply sublist_skip, IH.
  - apply sublist_cons, IH.
  - apply sublist_cons, IH.
Qed.

(** X5.  Every failed entry is an input assertion followed by a reason in
    brackets, and the entries follow the input order of their assertions. *)
Theorem failed_entries_follow_input assertions :
  exists bad,
    bad `sublist_of` assertions /\
    Forall2 (fun assertion entry =>
               exists why, entry = assertion +:+ " (" +:+ why +:+ ")")
            bad (failed (run_test response assertions)).
Proof.
  induction assertions as [|assertion rest (bad & Hsub & Hall)].
  - exists []. split; [reflexivity|constructor].
  - rewrite run_test_cons. cbn [merge failed].
    destruct (run_assertion_outcome assertion) as [[_ [-> | [why ->]]] | [_ ->]]; cbn.
    + exists bad. split; [apply sublist_cons, Hsub|exact Hall].
    + exists (assertion :: bad). split; [apply sublist_skip, Hsub|].
      constructor; [exists why; reflexivity|exact Hall].
    + exists bad. split; [apply sublist_cons, Hsub|exact Hall].
Qed.

(** X6.  The two lists together hold one entry for each assertion that has
    one of the two prefixes, and none for the others. *)
Theorem outcomes_count_recognised assertions :
  length (passed (run_test response assertions))
  + length (failed (run_test response assertions))
  = length (List.filter recognised assertions).
Proof.
  induction assertions as [|assertion rest IH]; [reflexivity|].
  rewrite run_test_cons. cbn [merge passed failed List.filter].
  rewrite !length_app.
  destruct (run_assertion_outcome assertion) as [[-> [-> | [why ->]]] | [-> ->]];
    cbn; lia.
Qed.

End EvaluatorExtras.

(** ** The command line *)

Section CommandLineFacts.

Import Cli.

Implicit Types (sep item k v : string) (pairs : list (string * JSON)).

Lemma py_in_eq sub s :
  py_in sub s =
    String.prefix sub s
    || match s with
       | EmptyString => false
       | String _ t => py_in sub t
       end.
Proof. destruct s; reflexivity. Qed.

Lemma py_in_cut sep s :
  py_in sep s = match cut sep s with Some _ => true | None => false end.
Proof.
  induction s as [|c t IH]; rewrite py_in_eq, cut_eq.
  - destruct (String.prefix sep EmptyString); reflexivity.
  - destruct (String.prefix sep (String c t)); [reflexivity|].
    rewrite IH. destruct (cut sep t) as [[a b]|]; reflexivity.
Qed.

(** The test on the separator makes the unpacking safe. *)
Lemma add_pair_eq sep pairs item :
  add_pair sep pairs item =
    Ok match cut sep item with
       | Some (k, v) => dict_set (py_strip k) (JStr (py_strip v)) pairs
       | None => pairs
       end.
Proof.
  unfold add_pair, py_split1. rewrite py_in_cut.
  destruct (cut sep item) as [[k v]|]; reflexivity.
Qed.

Lemma add_pairs_app sep pairs items items' :
  add_pairs sep pairs (items ++ items') =
    let* pairs := add_pairs sep pairs items in add_pairs sep pairs items'.
Proof.
  revert pairs. induction items as [|item items IH]; intros pairs; [reflexivity|].
  cbn [app add_pairs]. rewrite add_pair_eq. cbn [bind]. apply IH.
Qed.

Lemma add_pairs_total sep pairs items : exists pairs', add_pairs sep pairs items = Ok pairs'.
Proof.
  revert pairs. induction items as [|item items IH]; intros pairs; [simpl; eauto|].
  cbn [add_pairs]. rewrite add_pair_eq. cbn [bind]. apply IH.
Qed.

Lemma lookup_dict_set_eq key value pairs :
  lookup_member key (dict_set key value pairs) = Some value.
Proof.
  induction pairs as [|[k v] pairs IH]; simpl.
  - rewrite String.eqb_refl. reflexivity.
  - destruct (String.eqb key k) eqn:E; simpl; rewrite E; [reflexivity|exact IH].
Qed.

Lemma lookup_dict_set_ne key key' value pairs :
  key <> key' ->
  lookup_member key' (dict_set key value pairs) = lookup_member key' pairs.
Proof.
  intros Hne. induction pairs as [|[k v] pairs IH]; simpl.
  - apply String.eqb_neq in Hne. rewrite String.eqb_sym, Hne. reflexivity.
  - destruct (String.eqb key k) eqn:E; simpl.
    + apply String.eqb_eq in E. subst k.
      assert (String.eqb key' key = false) as ->
        by (apply String.eqb_neq; congruence). reflexivity.
    + destruct (String.eqb key' k); [reflexivity|exact IH].
Qed.

Lemma dict_set_keys key value pairs :
  map fst (dict_set key value pairs) = map fst pairs \/
  (map fst (dict_set key value pairs) = map fst pairs ++ [key] /\
   ~ In key (map fst pairs)).
Proof.
  induction pairs as [|[k v] pairs IH]; simpl.
  - right. split; [reflexivity|tauto].
  - destruct (String.eqb key k) eqn:E; simpl; [left; reflexivity|].
    apply String.eqb_neq in E.
    destruct IH as [-> | [-> Hnot]]; [left; reflexivity|].
    right. split; [reflexivity|]. intros [Heq|Hin]; [congruence|tauto].
Qed.

Lemma dict_set_NoDup key value pairs :
  List.NoDup (map fst pairs) -> List.NoDup (map fst (dict_set key value pairs)).
Proof.
  intros Hnd. destruct (dict_set_keys key value pairs) as [-> | [-> Hnot]]; [exact Hnd|].
  apply NoDup_ListNoDup, NoDup_app. repeat split.
  - apply NoDup_ListNoDup, Hnd.
  - intros x Hx ->%list_elem_of_singleton. apply Hnot, list_elem_of_In, Hx.
  - apply NoDup_singleton.
Qed.

Lemma dict_set_Forall (P : string * JSON -> Prop) key value pairs :
  P (key, value) -> Forall P pairs -> Forall P (dict_set key value pairs).
Proof.
  intros Hnew Hall. induction Hall as [|[k v] pairs Hkv Hall IH]; simpl.
  - constructor; [exact Hnew|constructor].
  - destruct (String.eqb key k) eqn:E.
    + apply String.eqb_eq in E. subst k. constructor; assumption.
    + constructor; assumption.
Qed.

Lemma FirstCut_no_sep sep s k v :
  sep <> EmptyString -> FirstCut sep s k v -> ~ Occurs sep k.
Proof.
  intros Hsep [-> Hmin] (a & b & ->).
  specialize (Hmin a (b +:+ sep +:+ v)).
  rewrite !sapp_assoc in Hmin. specialize (Hmin eq_refl).
  rewrite !slength_app in Hmin.
  assert (0 < String.length sep) by (destruct sep; simpl; [congruence|lia]). lia.
Qed.

Lemma Occurs_strip sep (p : ascii -> bool) s : Occurs sep (strip_by p s) -> Occurs sep s.
Proof.
  intros (x & y & Heq).
  destruct (strip_by_spec p s) as (a & b & Hs & _).
  exists (a +:+ x), (y +:+ b). rewrite Hs at 1. rewrite Heq, !sapp_assoc. reflexivity.
Qed.

Lemma strip_by_idempotent (p : ascii -> bool) s :
  strip_by p (strip_by p s) = strip_by p s.
Proof.
  destruct (strip_by_spec p s) as (a & b & _ & _ & _ & Hst & Hen).
  apply (strip_by_unique p _ EmptyString _ EmptyString);
    [rewrite sapp_nil_r; reflexivity|reflexivity|reflexivity|assumption|assumption].
Qed.

Lemma add_pairs_clean sep : sep <> EmptyString ->
  forall items pairs pairs',
    List.NoDup (map fst pairs) -> Forall (Cli.clean_pair sep) pairs ->
    add_pairs sep pairs items = Ok pairs' ->
    List.NoDup (map fst pairs') /\ Forall (Cli.clean_pair sep) pairs'.
Proof.
  intros Hsep. induction items as [|item items IH]; intros pairs pairs' Hnd Hall H.
  - injection H as <-. split; assumption.
  - cbn [add_pairs] in H. rewrite add_pair_eq in H. cbn [bind] in H.
    apply IH in H; [exact H| |]; destruct (cut sep item) as [[k v]|] eqn:Hc;
      try assumption.
    + apply dict_set_NoDup, Hnd.
    + apply dict_set_Forall; [|exact Hall].
      apply cut_first_cut in Hc. repeat split; cbn [fst snd].
      * intros Hocc. apply (FirstCut_no_sep _ _ _ _ Hsep Hc).
        apply (Occurs_strip _ isspace), Hocc.
      * apply strip_by_idempotent.
      * exists (py_strip v). split; [reflexivity|apply strip_by_idempotent].
Qed.

End CommandLineFacts.

(** X7.  The loops over the headers and over the parameters never raise, and
    what they build is a dictionary whose keys are distinct, hold no
    separator and no whitespace around them, and whose values are strings
    without whitespace around them. *)
Theorem parsed_pairs_are_clean (sep : string) (items : list string) :
  sep <> EmptyString ->
  exists pairs,
    Cli.add_pairs sep [] items = Ok pairs /\
    List.NoDup (map fst pairs) /\
    Forall (fun m => ~ Occurs sep (fst m) /\ py_strip (fst m) = fst m /\
                     exists s, snd m = JStr s /\ py_strip s = s) pairs.
Proof.
  intros Hsep. destruct (add_pairs_total sep [] items) as [pairs H].
  exists pairs. split; [exact H|].
  apply (add_pairs_clean sep Hsep items [] pairs); [constructor|constructor|exact H].
Qed.

Lemma parsed_pairs_are_clean_witness :
  exists pairs,
    Cli.parse_headers ["Accept : text/html "; "bare"; "Accept:*/*"] = Ok pairs /\
    List.NoDup (map fst pairs).
Proof.
  destruct (parsed_pairs_are_clean ":" ["Accept : text/html "; "bare"; "Accept:*/*"])
    as (pairs & H & Hnd & _); [discriminate|].
  exists pairs. split; assumption.
Defined.

(** X8.  The last header (or parameter) given for a key wins: the dictionary
    maps the trimmed text before the first separator of that item to the
    trimmed text after it, further separators included. *)
Theorem last_pair_wins (sep : string) (before after : list string) (item k v : string) :
  sep <> EmptyString ->
  FirstCut sep item k v ->
  (forall item' k' v', In item' after -> FirstCut sep item' k' v' ->
                       py_strip k' <> py_strip k) ->
  exists pairs,
    Cli.add_pairs sep [] (before ++ item :: after) = Ok pairs /\
    lookup_member (py_strip k) pairs = Some (JStr (py_strip v)).
Proof.
  intros Hsep Hcut Hlater.
  rewrite add_pairs_app.
  destruct (add_pairs_total sep [] before) as [pairs0 ->]. cbn [bind Cli.add_pairs].
  rewrite add_pair_eq. apply cut_first_cut in Hcut. rewrite Hcut. cbn [bind].
  pose proof (lookup_dict_set_eq (py_strip k) (JStr (py_strip v)) pairs0) as Hlook.
  revert Hlook. generalize (Cli.dict_set (py_strip k) (JStr (py_strip v)) pairs0).
  induction after as [|item' after IH]; intros pairs Hlook.
  - exists pairs. split; [reflexivity|exact Hlook].
  - cbn [Cli.add_pairs]. rewrite add_pair_eq. cbn [bind].
    apply IH.
    + intros item'' k' v' Hin. apply Hlater. right. exact Hin.
    + destruct (cut sep item') as [[k' v']|] eqn:Hc; [|exact Hlook].
      rewrite lookup_dict_set_ne; [exact Hlook|].
      apply (Hlater item' k' v'); [left; reflexivity|apply cut_first_cut, Hc].
Qed.

Lemma last_pair_wins_witness :
  exists pairs,
    Cli.parse_headers (["Host: a"] ++ "Host : b:8080 " :: ["Accept: */*"]) = Ok pairs /\
    lookup_member "Host" pairs = Some (JStr "b:8080").
Proof.
  apply (last_pair_wins ":" ["Host: a"] ["Accept: */*"] "Host : b:8080 " "Host " " b:8080 ").
  - discriminate.
  - apply cut_first_cut. reflexivity.
  - intros item' k' v' [<-|[]] Hcut.
    apply cut_first_cut in Hcut. vm_compute in Hcut. injection Hcut as <- <-.
    vm_compute. discriminate.
Defined.

(** X9.  A header (or parameter) that holds no separator is skipped without
    a word: the result is the one of the list without it. *)
Theorem item_without_separator_is_skipped
    (sep : string) (before after : list string) (item : string) :
  ~ Occurs sep item ->
  Cli.add_pairs sep [] (before ++ item :: after) = Cli.add_pairs sep [] (before ++ after).
Proof.
  intros Hno. rewrite !add_pairs_app.
  destruct (add_pairs_total sep [] before) as [pairs0 ->]. cbn [bind Cli.add_pairs].
  rewrite add_pair_eq.
  destruct (cut sep item) as [[k v]|] eqn:Hc; [|reflexivity].
  exfalso. apply Hno. exists k, v. apply (cut_sound _ _ _ _ Hc).
Qed.

Lemma item_without_separator_is_skipped_witness :
  Cli.parse_params (["a=1"] ++ "verbose" :: ["b=2"]) = Cli.parse_params (["a=1"] ++ ["b=2"]).
Proof.
  apply (item_without_separator_is_skipped "=" ["a=1"] ["b=2"] "verbose").
  apply cut_none. reflexivity.
Defined.

(** X10.  Credentials are split at their first colon: the user name is the
    text before it and the password all the text after it, so that the two
    joined by a colon give the option back; credentials without a colon give
    no credentials at all, and nothing is raised. *)
Theorem credentials_split_at_first_colon (auth : string) :
  (forall username password,
      Cli.parse_auth (Some auth) = Ok (Some (username, password)) <->
      FirstCut ":" auth username password) /\
  (Cli.parse_auth (Some auth) = Ok None <-> ~ Occurs ":" auth).
Proof.
  assert (Heq : Cli.parse_auth (Some auth) =
                Ok match cut ":" auth with Some up => Some up | None => None end).
  { destruct auth as [|c auth]; [reflexivity|].
    unfold Cli.parse_auth, Cli.py_split1. rewrite py_in_cut.
    destruct (cut ":" (String c auth)) as [[u p]|]; reflexivity. }
  rewrite Heq. split.
  - intros username password. rewrite <- cut_first_cut.
    destruct (cut ":" auth) as [[u p]|]; split; intros H; congruence.
  - destruct (cut ":" auth) as [[u p]|] eqn:Hc; split; intros H.
    + discriminate.
    + exfalso. apply H. exists u, p. apply (cut_sound _ _ _ _ Hc).
    + apply cut_none, Hc.
    + reflexivity.
Qed.

(** ** The arguments of the request *)

Section RequestFacts.

Variable upper : string -> string.
Variable environ : gmap string string.

Lemma lookup_member_map (g : JSON -> JSON) key (members : list (string * JSON)) :
  lookup_member key (map (fun m => (fst m, g (snd m))) members) =
    option_map g (lookup_member key members).
Proof.
  induction members as [|[k v] members IH]; [reflexivity|]. simpl.
  destruct (String.eqb key k); [reflexivity|exact IH].
Qed.

Lemma add_pairs_last sep before after item k v :
  FirstCut sep item k v ->
  (forall item' k' v', In item' after -> FirstCut sep item' k' v' ->
                       py_strip k' <> py_strip k) ->
  exists pairs,
    Cli.add_pairs sep [] (before ++ item :: after) = Ok pairs /\
    lookup_member (py_strip k) pairs = Some (JStr (py_strip v)).
Proof.
  intros Hcut Hlater.
  rewrite add_pairs_app.
  destruct (add_pairs_total sep [] before) as [pairs0 ->]. cbn [bind Cli.add_pairs].
  rewrite add_pair_eq. apply cut_first_cut in Hcut. rewrite Hcut. cbn [bind].
  pose proof (lookup_dict_set_eq (py_strip k) (JStr (py_strip v)) pairs0) as Hlook.
  revert Hlook. generalize (Cli.dict_set (py_strip k) (JStr (py_strip v)) pairs0).
  induction after as [|item' after IH]; intros pairs Hlook.
  - exists pairs. split; [reflexivity|exact Hlook].
  - cbn [Cli.add_pairs]. rewrite add_pair_eq. cbn [bind].
    apply IH.
    + intros item'' k' v' Hin. apply Hlater. right. exact Hin.
    + destruct (cut sep item') as [[k' v']|] eqn:Hc; [|exact Hlook].
      rewrite lookup_dict_set_ne; [exact Hlook|].
      apply (Hlater item' k' v'); [left; reflexivity|apply cut_first_cut, Hc].
Qed.

End RequestFacts.

(** X11.  A header of the command line reaches the HTTP library with its
    value rewritten by the substitution: the request carries, under the
    trimmed name of the last header given for it, the substitution of its
    trimmed value. *)
Theorem header_value_is_substituted
    (upper : string -> string) (environ : gmap string string)
    (before after : list string) (item k v method url : string)
    (params body : JSON) (auth : option (string * string)) (timeout : Z) (verify : bool) :
  FirstCut ":" item k v ->
  (forall item' k' v', In item' after -> FirstCut ":" item' k' v' ->
                       py_strip k' <> py_strip k) ->
  exists headers args,
    Cli.parse_headers (before ++ item :: after) = Ok headers /\
    Cli.request_arguments upper environ (JStr method) (JStr url)
      (if Cli.py_bool (JDict headers) then JDict headers else JNull)
      params body auth timeout verify = Ok args /\
    Cli.getitem_key (Cli.arg_headers args) (py_strip k)
      = Ok (JStr (substitute_vars environ (py_strip v))).
Proof.
  intros Hcut Hlater.
  destruct (add_pairs_last ":" before after item k v Hcut Hlater) as (headers & Hparse & Hlook).
  exists headers. unfold Cli.parse_headers. rewrite Hparse.
  assert (Htrue : Cli.py_bool (JDict headers) = true)
    by (destruct headers; [discriminate|reflexivity]).
  rewrite Htrue. unfold Cli.request_arguments. cbn [Cli.substitute_value bind].
  rewrite Htrue. cbn [Cli.substitute_headers Cli.upper_value bind].
  eexists. split; [reflexivity|]. split; [reflexivity|].
  cbn [Cli.arg_headers Cli.getitem_key].
  rewrite (lookup_member_map (fun v => JStr (substitute_vars environ (py_str v)))).
  rewrite Hlook. reflexivity.
Qed.

Lemma header_value_is_substituted_witness :
  exists headers args,
    Cli.parse_headers ([] ++ "X-Ref: {{a}}" :: []) = Ok headers /\
    Cli.request_arguments (fun s => s) env_ab (JStr "get") (JStr "http://h/")
      (if Cli.py_bool (JDict headers) then JDict headers else JNull)
      JNull JNull None 30 true = Ok args /\
    Cli.getitem_key (Cli.arg_headers args) (py_strip "X-Ref")
      = Ok (JStr (substitute_vars env_ab (py_strip " {{a}}"))).
Proof.
  apply (header_value_is_substituted (fun s => s) env_ab [] [] "X-Ref: {{a}}" "X-Ref" " {{a}}"
           "get" "http://h/" JNull JNull None 30 true).
  - apply cut_first_cut. reflexivity.
  - intros item' k' v' [].
Defined.



(** ** The history file *)

Section HistoryFacts.

Import Cli.

Lemma take_app_take {A : Type} (n : nat) (l m : list A) :
  firstn n (l ++ firstn n m) = firstn n (l ++ m).
Proof.
  rewrite !take_app, take_take. do 2 f_equal. lia.
Qed.

Lemma save_to_history_usable now history_file method url response history :
  (history_file = Missing /\ history = []) \/ history_file = Document (JList history) ->
  save_to_history now history_file method url response =
    Ok (Document (JList (firstn 100 (history_entry now method url response :: history)))).
Proof. intros [[-> ->] | ->]; reflexivity. Qed.

Lemma save_calls_usable calls : forall history,
  save_calls (Document (JList history)) calls =
    Ok (Document (JList (if calls is [] then history
                         else firstn 100 (rev (map entry_of calls) ++ history)))).
Proof.
  induction calls as [|call calls IH]; intros history; [reflexivity|].
  cbn [save_calls]. rewrite (save_to_history_usable _ _ _ _ _ history) by (right; reflexivity).
  cbn [bind]. rewrite IH. do 3 f_equal.
  cbn [map rev]. fold (entry_of call). rewrite <- List.app_assoc. cbn [app].
  destruct calls as [|call' calls]; [reflexivity|].
  apply take_app_take.
Qed.

Lemma save_to_history_ok_iff now history_file method url response :
  (exists history_file', save_to_history now history_file method url response
                         = Ok history_file') <->
  usable_history history_file.
Proof.
  split.
  - intros [file' H]. destruct history_file as [| |value]; [left; reflexivity|discriminate|].
    destruct value; try discriminate. right. eauto.
  - intros [-> | [history ->]]; eexists; reflexivity.
Qed.

End HistoryFacts.

(** X13.  After any run of saves the history file holds the entries of the
    hundred most recent calls, the newest first, followed (while there is
    room) by what the file held before in its order. *)
Theorem history_holds_newest_hundred
    (history_file : Cli.File) (history : list JSON) (call : Cli.Call)
    (calls : list Cli.Call) :
  (history_file = Cli.Missing /\ history = []) \/
    history_file = Cli.Document (JList history) ->
  Cli.save_calls history_file (call :: calls) =
    Ok (Cli.Document
          (JList (firstn 100 (rev (map Cli.entry_of (call :: calls)) ++ history)))).
Proof.
  intros Hfile. cbn [Cli.save_calls].
  rewrite (save_to_history_usable _ _ _ _ _ history Hfile). cbn [bind].
  rewrite save_calls_usable. do 3 f_equal. fold (Cli.entry_of call).
  cbn [map rev]. rewrite <- List.app_assoc. cbn [app].
  destruct calls as [|call' calls]; [reflexivity|].
  apply take_app_take.
Qed.

Lemma history_holds_newest_hundred_witness :
  Cli.save_calls Cli.Missing
    [("t1", JStr "get", JStr "http://h/1", response_ok);
     ("t2", JStr "get", JStr "http://h/2", response_ok)] =
  Ok (Cli.Document
        (JList [Cli.history_entry "t2" (JStr "get") (JStr "http://h/2") response_ok;
                Cli.history_entry "t1" (JStr "get") (JStr "http://h/1") response_ok])).
Proof.
  exact (history_holds_newest_hundred Cli.Missing []
           ("t1", JStr "get", JStr "http://h/1", response_ok)
           [("t2", JStr "get", JStr "http://h/2", response_ok)]
           (or_introl (conj eq_refl eq_refl))).
Defined.

(** X14.  A save succeeds exactly when the history file is missing or holds
    a JSON array: a file with anything else makes every save raise, and the
    file stays as it is. *)
Theorem history_file_must_hold_a_list
    (now : string) (history_file : Cli.File) (method url : JSON)
    (response : Cli.HttpResponse) :
  (exists history_file',
      Cli.save_to_history now history_file method url response = Ok history_file') <->
  (history_file = Cli.Missing \/
   exists history, history_file = Cli.Document (JList history)).
Proof. apply save_to_history_ok_iff. Qed.

(** ** Collections *)

Section CollectionFacts.

Import Cli.

Variable renders : string -> bool.

Lemma save_request_document save data members requests :
  lookup_member "requests" members = Some (JList requests) ->
  save_request renders (Document (JDict members)) save data =
    save_collection renders save (JList (requests ++ [data])).
Proof.
  intros Hlook. unfold save_request, load_collection, json_load. cbn [bind].
  assert (py_bool (JDict members) = true) as ->
    by (destruct members; [discriminate|reflexivity]).
  cbn [getitem_key]. rewrite Hlook. reflexivity.
Qed.


End CollectionFacts.

(** X15.  Saving a request into a collection that exists appends it: the
    file then holds the name given and the requests it held followed by the
    new one, whatever else it held; the file is written also when the
    message that follows cannot be printed. *)
Theorem save_request_appends
    (renders : string -> bool) (save : string) (data : JSON)
    (members : list (string * JSON)) (requests : list JSON) :
  lookup_member "requests" members = Some (JList requests) ->
  fst (Cli.save_request renders (Cli.Document (JDict members)) save data) =
    Cli.Document (JDict [("name", JStr save); ("requests", JList (requests ++ [data]))]) /\
  (renders ("[green]Collection '" +:+ save +:+ "' saved successfully![/green]") = true ->
   snd (Cli.save_request renders (Cli.Document (JDict members)) save data) = Ok tt).
Proof.
  intros Hlook. rewrite (save_request_document renders save data members requests Hlook).
  split; [reflexivity|]. intros Hr. cbn [Cli.save_collection snd].
  unfold Cli.console_print. rewrite Hr. reflexivity.
Qed.

Lemma save_request_appends_witness :
  fst (Cli.save_request (fun _ => false)
         (Cli.Document (JDict [("requests", JList [JInt 1]); ("note", JNull)]))
         "smoke" (JInt 2)) =
    Cli.Document (JDict [("name", JStr "smoke"); ("requests", JList [JInt 1; JInt 2])]).
Proof.
  exact (proj1 (save_request_appends (fun _ => false) "smoke" (JInt 2)
                  [("requests", JList [JInt 1]); ("note", JNull)] [JInt 1] eq_refl)).
Defined.



(** X17.  The [--save] step never leaves a broken file: either it raises
    before it writes and the file is as it was, or the file holds a
    collection under the name given whose last request is the new one. *)
Theorem save_request_writes_collection_or_nothing
    (renders : string -> bool) (collection_file : Cli.File) (save : string) (data : JSON) :
  (fst (Cli.save_request renders collection_file save data) = collection_file /\
   exists e, snd (Cli.save_request renders collection_file save data) = Raise e) \/
  (exists requests,
      fst (Cli.save_request renders collection_file save data) =
        Cli.Document
          (JDict [("name", JStr save); ("requests", JList (requests ++ [data]))])).
Proof.
  unfold Cli.save_request.
  destruct (Cli.load_collection renders collection_file save) as [collection|e];
    cbn [bind]; [|left; split; [reflexivity|eauto]].
  destruct (Cli.py_bool collection).
  - destruct (Cli.getitem_key collection "requests") as [requests|e]; cbn [bind];
      [|left; split; [reflexivity|eauto]].
    destruct requests; cbn [Cli.list_append];
      try (left; split; [reflexivity|eauto]).
    right. eexists. reflexivity.
  - right. exists []. reflexivity.
Qed.

(** ** [run_collection] *)

Section RunCollectionFacts.

Import Cli.

Variable upper : string -> string.
Variable environ : gmap string string.
Variable renders : string -> bool.
Variable prints : Site -> bool.
Variable http : nat -> RequestArgs -> result Error HttpResponse.
Variable now : nat -> string.

Abbreviation answer := (answer upper environ prints http).
Abbreviation run_request := (run_request upper environ prints http now).
Abbreviation run_requests := (run_requests upper environ prints http now).

Lemma usable_history_dec history_file :
  usable_history history_file \/ ~ usable_history history_file.
Proof.
  destruct history_file as [| |value]; [left; left; reflexivity| |].
  - right. intros [H|[h H]]; discriminate.
  - destruct value; try (right; intros [H|[h H]]; discriminate).
    left. right. eauto.
Qed.

Lemma save_to_history_result stamp history_file method url response history_file' :
  save_to_history stamp history_file method url response = Ok history_file' ->
  usable_history history_file /\ usable_history history_file'.
Proof.
  intros H. split; [apply (save_to_history_ok_iff stamp _ method url response); eauto|].
  unfold save_to_history in H.
  destruct (match history_file with Missing => Ok (JList []) | _ => json_load history_file end)
    as [value|]; [|discriminate].
  cbn [bind] in H. destruct (list_insert0 value _); [|discriminate].
  injection H as <-. right. eauto.
Qed.

Lemma record_result i req response history_file :
  is_dict req = true ->
  (usable_history history_file ->
   exists history_file', record now i req response history_file = Ok history_file' /\
                         usable_history history_file') /\
  (~ usable_history history_file ->
   exists e, record now i req response history_file = Raise e).
Proof.
  destruct req; try discriminate. intros _. unfold record. cbn [dict_get bind].
  match goal with |- context [save_to_history ?s ?f ?m ?u ?r] =>
    destruct (save_to_history s f m u r) as [file'|e] eqn:Hsave end.
  - apply save_to_history_result in Hsave as [Hu Hu'].
    split; [eauto|]. intros Hn. contradiction.
  - split; [|eauto]. intros Hu.
    apply (save_to_history_ok_iff (now i) _
             (match lookup_member "method" members with Some v => v | None => JStr "GET" end)
             (match lookup_member "url" members with Some v => v | None => JStr EmptyString end)
             response) in Hu as [file' Hu].
    congruence.
Qed.

Lemma answer_is_dict i req response : answer i req = Ok response -> is_dict req = true.
Proof. unfold Cli.answer. destruct req; try discriminate. reflexivity. Qed.

Lemma run_request_step i req tally history_file tally' history_file' :
  run_request i req (tally, history_file) = Ok (tally', history_file') ->
  total_count tally' = total_count tally /\
  (usable_history history_file ->
   usable_history history_file' /\ sum_counts tally' = sum_counts tally + 1) /\
  (~ usable_history history_file ->
   history_file' = history_file /\
   sum_counts tally' = sum_counts tally + 1 + Cli.answered upper environ prints http i [req]).
Proof.
  unfold Cli.run_request, sum_counts, say. cbn [fst snd Cli.answered].
  destruct (prints (SayRequest i)); [|discriminate]. cbn [bind].
  destruct (answer i req) as [response|e] eqn:Hanswer.
  - destruct (record_result i req response history_file (answer_is_dict _ _ _ Hanswer))
      as [Hgood Hbad].
    destruct (record now i req response history_file) as [file''|e] eqn:Hrecord.
    + cbn [bind]. destruct (prints (SayBlank i)); [|discriminate]. cbn [bind].
      intros H. injection H as <- <-.
      assert (Hu : usable_history history_file).
      { destruct (usable_history_dec history_file) as [Hu|Hn]; [exact Hu|].
        destruct (Hbad Hn) as [e He]. congruence. }
      destruct (Hgood Hu) as (f & Hf & Hu'). injection Hf as <-.
      split; [destruct (_ <? _)%Z; reflexivity|]. split.
      * intros _. split; [exact Hu'|]. destruct (_ <? _)%Z; cbn; lia.
      * intros Hn. contradiction.
    + destruct (prints (SayError i)); [|discriminate]. cbn [bind].
      destruct (prints (SayBlank i)); [|discriminate]. cbn [bind].
      intros H. injection H as <- <-.
      split; [destruct (_ <? _)%Z; reflexivity|]. split.
      * intros Hu. destruct (Hgood Hu) as (f & Hf & _). congruence.
      * intros _. split; [reflexivity|]. destruct (_ <? _)%Z; cbn; lia.
  - destruct (prints (SayError i)); [|discriminate]. cbn [bind].
    destruct (prints (SayBlank i)); [|discriminate]. cbn [bind].
    intros H. injection H as <- <-.
    split; [reflexivity|]. split.
    + intros Hu. split; [exact Hu|]. cbn. lia.
    + intros _. split; [reflexivity|]. cbn. lia.
Qed.

Lemma answered_cons i req rest :
  Cli.answered upper environ prints http i (req :: rest) =
    Cli.answered upper environ prints http i [req]
    + Cli.answered upper environ prints http (S i) rest.
Proof. cbn [Cli.answered]. destruct (answer i req); reflexivity. Qed.

Lemma run_requests_steps requests : forall i tally history_file tally' history_file',
  run_requests i requests (tally, history_file) = Ok (tally', history_file') ->
  total_count tally' = total_count tally /\
  (usable_history history_file ->
   usable_history history_file' /\
   sum_counts tally' = sum_counts tally + length requests) /\
  (~ usable_history history_file ->
   history_file' = history_file /\
   sum_counts tally' = sum_counts tally + length requests
                       + Cli.answered upper environ prints http i requests).
Proof.
  induction requests as [|req rest IH]; intros i tally history_file tally' history_file' H.
  - injection H as <- <-. cbn. repeat split; try assumption; lia.
  - cbn [Cli.run_requests] in H.
    destruct (run_request i req (tally, history_file)) as [[tally1 file1]|e] eqn:Hstep;
      [|discriminate].
    cbn [bind] in H.
    apply run_request_step in Hstep as (Htotal & Hgood & Hbad).
    apply IH in H as (Htotal' & Hgood' & Hbad').
    split; [congruence|]. split.
    + intros Hu. destruct (Hgood Hu) as [Hu1 Hsum]. destruct (Hgood' Hu1) as [Hu2 Hsum'].
      split; [exact Hu2|]. cbn [length]. lia.
    + intros Hn. destruct (Hbad Hn) as [-> Hsum]. destruct (Hbad' Hn) as [-> Hsum'].
      split; [reflexivity|]. rewrite answered_cons. cbn [length]. lia.
Qed.

(** What [run_collection] has done when it comes to its end. *)
Lemma run_collection_end collection_file name history_file tally history_file' :
  Cli.run_collection upper environ renders prints http now collection_file name history_file
    = Ok (Some tally, history_file') ->
  exists collection requests_value requests,
    load_collection renders collection_file name = Ok collection /\
    dict_get collection "requests" (JList []) = Ok requests_value /\
    py_iter requests_value = Ok requests /\
    run_requests 1 requests
      ({| passed_count := 0; failed_count := 0; total_count := length requests |},
       history_file) = Ok (tally, history_file').
Proof.
  unfold Cli.run_collection, py_len, say.
  destruct (load_collection renders collection_file name) as [collection|] eqn:Hload;
    [|discriminate].
  cbn [bind]. destruct (py_bool collection); [|discriminate]. cbn [negb].
  destruct (prints SayRunning); [|discriminate]. cbn [bind].
  destruct (dict_get collection "requests" (JList [])) as [value|] eqn:Hget;
    [|discriminate].
  cbn [bind]. destruct (py_iter value) as [requests|] eqn:Hiter; [|discriminate].
  cbn [bind].
  destruct (run_requests 1 requests _) as [[tally1 file1]|] eqn:Hrun; [|discriminate].
  cbn [bind fst snd]. destruct (prints SaySummary); [|discriminate]. cbn [bind].
  intros H. injection H as <- <-. exists collection, value, requests.
  repeat split; reflexivity || assumption.
Qed.

End RunCollectionFacts.

(** X18.  When the history file is missing or holds a JSON array, the
    counters that [run_collection] prints add up: every request of the
    collection is counted once, as passed or as failed, and the history file
    stays usable. *)
Theorem tally_adds_up
    (upper : string -> string) (environ : gmap string string)
    (renders : string -> bool) (prints : Cli.Site -> bool)
    (http : nat -> Cli.RequestArgs -> result Cli.Error Cli.HttpResponse)
    (now : nat -> string) (collection_file : Cli.File) (name : string)
    (history_file history_file' : Cli.File) (tally : Cli.Tally) :
  Cli.run_collection upper environ renders prints http now collection_file name history_file
    = Ok (Some tally, history_file') ->
  Cli.usable_history history_file ->
  Cli.passed_count tally + Cli.failed_count tally = Cli.total_count tally /\
  Cli.usable_history history_file'.
Proof.
  intros Hrun Hu.
  apply run_collection_end in Hrun as (collection & value & requests & _ & _ & _ & Hrun).
  apply run_requests_steps in Hrun as (Htotal & Hgood & _).
  destruct (Hgood Hu) as [Hu' Hsum]. split; [|exact Hu'].
  unfold sum_counts in Hsum. cbn in Hsum, Htotal. lia.
Qed.

(** X19.  When the history file holds anything else, [run_collection]
    leaves it as it is and counts every request that got a response twice:
    once by its status and once more as failed, because the save of its
    history entry raises.  The two counters then exceed the total by the
    number of requests answered. *)
Theorem unusable_history_counts_answers_twice
    (upper : string -> string) (environ : gmap string string)
    (renders : string -> bool) (prints : Cli.Site -> bool)
    (http : nat -> Cli.RequestArgs -> result Cli.Error Cli.HttpResponse)
    (now : nat -> string) (collection_file : Cli.File) (name : string)
    (history_file history_file' : Cli.File) (tally : Cli.Tally) :
  Cli.run_collection upper environ renders prints http now collection_file name history_file
    = Ok (Some tally, history_file') ->
  ~ Cli.usable_history history_file ->
  exists collection requests_value requests,
    Cli.load_collection renders collection_file name = Ok collection /\
    Cli.dict_get collection "requests" (JList []) = Ok requests_value /\
    Cli.py_iter requests_value = Ok requests /\
    Cli.total_count tally = length requests /\
    Cli.passed_count tally + Cli.failed_count tally =
      Cli.total_count tally + Cli.answered upper environ prints http 1 requests /\
    history_file' = history_file.
Proof.
  intros Hrun Hn.
  apply run_collection_end in Hrun
    as (collection & value & requests & Hload & Hget & Hiter & Hrun).
  exists collection, value, requests. repeat (split; [assumption|]).
  apply run_requests_steps in Hrun as (Htotal & _ & Hbad).
  destruct (Hbad Hn) as [-> Hsum]. split; [exact Htotal|]. split; [|reflexivity].
  unfold sum_counts in Hsum. cbn in Hsum, Htotal. lia.
Qed.

Lemma tally_adds_up_witness :
  exists tally history_file',
    sample_run Cli.Missing = Ok (Some tally, history_file') /\
    Cli.usable_history Cli.Missing /\
    Cli.passed_count tally + Cli.failed_count tally = Cli.total_count tally.
Proof.
  exists {| Cli.passed_count := 1; Cli.failed_count := 0; Cli.total_count := 1 |}.
  exists (Cli.Document
            (JList [Cli.history_entry "t" (JStr "GET") (JStr "http://h/") response_ok])).
  assert (Hrun : sample_run Cli.Missing =
                 Ok (Some {| Cli.passed_count := 1; Cli.failed_count := 0;
                             Cli.total_count := 1 |},
                     Cli.Document
                       (JList [Cli.history_entry "t" (JStr "GET") (JStr "http://h/")
                                 response_ok])))
    by (vm_compute; reflexivity).
  split; [exact Hrun|]. split; [left; reflexivity|].
  exact (proj1 (tally_adds_up _ _ _ _ _ _ _ _ _ _ _ Hrun (or_introl eq_refl))).
Defined.

Lemma unusable_history_counts_answers_twice_witness :
  sample_run Cli.Unreadable =
    Ok (Some {| Cli.passed_count := 1; Cli.failed_count := 1; Cli.total_count := 1 |},
        Cli.Unreadable) /\
  ~ Cli.usable_history Cli.Unreadable /\
  exists requests,
    1 = length requests /\
    1 + 1 = 1 + Cli.answered (fun s => s) ∅ (fun _ => true) (fun _ _ => Ok response_ok)
                  1 requests.
Proof.
  assert (Hrun : sample_run Cli.Unreadable =
                 Ok (Some {| Cli.passed_count := 1; Cli.failed_count := 1;
                             Cli.total_count := 1 |}, Cli.Unreadable))
    by (vm_compute; reflexivity).
  assert (Hn : ~ Cli.usable_history Cli.Unreadable)
    by (intros [H|[h H]]; discriminate).
  split; [exact Hrun|]. split; [exact Hn|].
  destruct (unusable_history_counts_answers_twice _ _ _ _ _ _ _ _ _ _ _ Hrun Hn)
    as (collection & value & requests & _ & _ & _ & Htotal & Hsum & _).
  exists requests. split; [exact Htotal|exact Hsum].
Defined.

(** ** The report of the tests *)

(** X20.  A batch is evaluated assertion by assertion with nothing carried
    from one to the next: the result for two batches in a row is the result
    for the first followed, list by list, by the result for the second. *)
Theorem batches_compose (response : Response) (first second : list string) :
  passed (run_test response (first ++ second)) =
    passed (run_test response first) ++ passed (run_test response second) /\
  failed (run_test response (first ++ second)) =
    failed (run_test response first) ++ failed (run_test response second).
Proof. rewrite run_test_app. split; reflexivity. Qed.

(** X21.  When none of the assertions given has one of the two prefixes,
    [request] reports that all tests passed, whatever the response is. *)
Theorem unrecognised_tests_report_success (response : Response) (tests : list string) :
  Forall (fun assertion => recognised assertion = false) tests ->
  tests_verdict (run_test response tests) =
    String "010" "[bold green]All tests passed![/bold green]".
Proof.
  intros Hall. assert (run_test response tests = no_results) as ->; [|reflexivity].
  induction Hall as [|assertion tests Hno _ IH]; [reflexivity|].
  rewrite run_test_cons, IH.
  destruct (run_assertion_outcome response assertion) as [[Hyes _] | [_ ->]];
    [congruence|reflexivity].
Qed.

Lemma unrecognised_tests_report_success_witness :
  tests_verdict (run_test response_404 ["status == 200"; "Body.ok == true"]) =
    String "010" "[bold green]All tests passed![/bold green]".
Proof.
  apply (unrecognised_tests_report_success response_404 ["status == 200"; "Body.ok == true"]).
  repeat constructor.
Defined.
